(** * TeleBot: the video downloader bot of [YT_TT_FB.py]

    A shallow embedding of the bot's URL validator, of its per-user
    session store and of its three update handlers, with the chat
    gateway, the extraction engine and the file system as explicit
    parts of the world the handlers run in. *)

From Stdlib Require Import String Ascii ZArith NArith List Lia Bool.
From Stdlib Require Import DecimalString.
From stdpp Require Import gmap strings list fin_maps.

Local Open Scope N_scope.

(** ** Text

    A Python [str] is a sequence of Unicode code points.  Literals are
    written as in the source and decoded from the UTF-8 bytes of the
    Rocq string. *)

Abbreviation pystr := (list N).

Fixpoint utf8_decode (bs : list N) : pystr :=
  match bs with
  | [] => []
  | b :: r =>
    if b <? 0x80 then b :: utf8_decode r
    else match r with
    | [] => []
    | b1 :: r1 =>
      if b <? 0xE0 then ((b - 0xC0) * 64 + (b1 - 0x80)) :: utf8_decode r1
      else match r1 with
      | [] => []
      | b2 :: r2 =>
        if b <? 0xF0
        then ((b - 0xE0) * 4096 + (b1 - 0x80) * 64 + (b2 - 0x80)) :: utf8_decode r2
        else match r2 with
        | [] => []
        | b3 :: r3 =>
          ((b - 0xF0) * 262144 + (b1 - 0x80) * 4096 + (b2 - 0x80) * 64 + (b3 - 0x80))
            :: utf8_decode r3
        end
      end
    end
  end.

Definition txt (s : string) : pystr :=
  utf8_decode (map N_of_ascii (list_ascii_of_string s)).

(** [str(n)] of a Python [int]. *)
Definition py_str_int (z : Z) : pystr :=
  txt (NilEmpty.string_of_int (Z.to_int z)).

(** [s.startswith(p)] *)
Fixpoint startswith (p s : pystr) : bool :=
  match p, s with
  | [], _ => true
  | _ :: _, [] => false
  | a :: p', b :: s' => (a =? b) && startswith p' s'
  end.

(** [s.split(sep)] for a separator of one character: the pieces
    between the occurrences of [sep], never an empty list. *)
Fixpoint split_chr (sep : N) (s : pystr) : list pystr :=
  match s with
  | [] => [[]]
  | c :: s' =>
    if c =? sep then [] :: split_chr sep s'
    else match split_chr sep s' with
         | [] => [[c]]
         | piece :: pieces => (c :: piece) :: pieces
         end
  end.

(** [s.replace(old, new)] for an [old] of one character. *)
Definition replace_chr (old : N) (new : pystr) (s : pystr) : pystr :=
  flat_map (fun c => if c =? old then new else [c]) s.

(** [str.isspace] on one code point: the white space that
    [str.strip()] removes. *)
Definition is_space (c : N) : bool :=
  ((0x09 <=? c) && (c <=? 0x0D)) || ((0x1C <=? c) && (c <=? 0x20))
  || (c =? 0x85) || (c =? 0xA0) || (c =? 0x1680)
  || ((0x2000 <=? c) && (c <=? 0x200A))
  || (c =? 0x2028) || (c =? 0x2029) || (c =? 0x202F) || (c =? 0x205F)
  || (c =? 0x3000).

Fixpoint lstrip (s : pystr) : pystr :=
  match s with
  | c :: s' => if is_space c then lstrip s' else s
  | [] => []
  end.

(** [s.strip()] *)
Definition strip (s : pystr) : pystr := rev (lstrip (rev (lstrip s))).

(** ** Regular expressions

    The fragment of Python's [re] syntax that the three patterns use.
    [Dot] is [.] without [re.DOTALL]: any character but the line
    feed. *)

Inductive regex : Type :=
| Void
| Eps
| Chr (c : N)
| Dot
| Seq (a b : regex)
| Alt (a b : regex)
| Star (a : regex).

Definition Opt (r : regex) : regex := Alt r Eps.
Definition Plus (r : regex) : regex := Seq r (Star r).

(** The characters of [s], one after the other, and then [r]. *)
Fixpoint Lit_then (s : pystr) (r : regex) : regex :=
  match s with
  | [] => r
  | c :: s' => Seq (Chr c) (Lit_then s' r)
  end.

Definition Lit (s : pystr) : regex := Lit_then s Eps.

Definition LF : N := 10.

Fixpoint nullable (r : regex) : bool :=
  match r with
  | Void | Chr _ | Dot => false
  | Eps | Star _ => true
  | Seq a b => nullable a && nullable b
  | Alt a b => nullable a || nullable b
  end.

Fixpoint deriv (c : N) (r : regex) : regex :=
  match r with
  | Void | Eps => Void
  | Chr d => if c =? d then Eps else Void
  | Dot => if c =? LF then Void else Eps
  | Seq a b =>
    if nullable a then Alt (Seq (deriv c a) b) (deriv c b)
    else Seq (deriv c a) b
  | Alt a b => Alt (deriv c a) (deriv c b)
  | Star a => Seq (deriv c a) (Star a)
  end.

(** [re.match(r, s) is not None]: the pattern matches some prefix of
    [s], from its first character. *)
Fixpoint re_match (r : regex) (s : pystr) : bool :=
  nullable r ||
  match s with
  | [] => false
  | c :: s' => re_match (deriv c r) s'
  end.

(** The words of a pattern. *)
Inductive star_of (L : pystr -> Prop) : pystr -> Prop :=
| star_nil : star_of L []
| star_app u v : L u -> star_of L v -> star_of L (u ++ v).

Fixpoint lang (r : regex) (s : pystr) : Prop :=
  match r with
  | Void => False
  | Eps => s = []
  | Chr c => s = [c]
  | Dot => exists c, s = [c] /\ c <> LF
  | Seq a b => exists u v, s = u ++ v /\ lang a u /\ lang b v
  | Alt a b => lang a s \/ lang b s
  | Star a => star_of (lang a) s
  end.

(** *** Reading a pattern

    [re.compile] on the syntax the patterns are written in: literal
    characters, [\c] for the character [c] itself, [.], groups in
    parentheses, [|] between alternatives, and a postfix [?], [+] or
    [*].  A sequence is read piece by piece and ends in [Eps]. *)
Fixpoint parse_alt (n : nat) (s : pystr) {struct n} : option (regex * pystr) :=
  match n with
  | O => None
  | S n' =>
    match parse_seq n' s with
    | Some (a, 124 :: rest) =>
      match parse_alt n' rest with
      | Some (b, rest') => Some (Alt a b, rest')
      | None => None
      end
    | r => r
    end
  end
with parse_seq (n : nat) (s : pystr) {struct n} : option (regex * pystr) :=
  match n with
  | O => None
  | S n' =>
    match s with
    | [] => Some (Eps, s)
    | 41 :: _ => Some (Eps, s)
    | 124 :: _ => Some (Eps, s)
    | _ =>
      match parse_piece n' s with
      | Some (a, rest) =>
        match parse_seq n' rest with
        | Some (b, rest') => Some (Seq a b, rest')
        | None => None
        end
      | None => None
      end
    end
  end
with parse_piece (n : nat) (s : pystr) {struct n} : option (regex * pystr) :=
  match n with
  | O => None
  | S n' =>
    match parse_atom n' s with
    | Some (a, 63 :: rest) => Some (Opt a, rest)
    | Some (a, 43 :: rest) => Some (Plus a, rest)
    | Some (a, 42 :: rest) => Some (Star a, rest)
    | r => r
    end
  end
with parse_atom (n : nat) (s : pystr) {struct n} : option (regex * pystr) :=
  match n with
  | O => None
  | S n' =>
    match s with
    | [] => None
    | 40 :: rest =>
      match parse_alt n' rest with
      | Some (a, 41 :: rest') => Some (a, rest')
      | _ => None
      end
    | 46 :: rest => Some (Dot, rest)
    | 92 :: c :: rest => Some (Chr c, rest)
    | c :: rest => Some (Chr c, rest)
    end
  end.

Definition re_compile (pattern : pystr) : option regex :=
  match parse_alt (4 * length pattern + 4) pattern with
  | Some (r, []) => Some r
  | _ => None
  end.

(** ** Values and exceptions *)

Inductive pyval : Type :=
| VNone
| VBool (b : bool)
| VInt (z : Z)
| VStr (s : pystr).

(** Truth value of an object, as [if x:] takes it. *)
Definition truthy (v : pyval) : bool :=
  match v with
  | VNone => false
  | VBool b => b
  | VInt z => negb (Z.eqb z 0)
  | VStr s => match s with [] => false | _ => true end
  end.

(** [str(v)], as an f-string formats it. *)
Definition py_str (v : pyval) : pystr :=
  match v with
  | VNone => txt "None"
  | VBool true => txt "True"
  | VBool false => txt "False"
  | VInt z => py_str_int z
  | VStr s => s
  end.

Definition py_type_name (v : pyval) : pystr :=
  match v with
  | VNone => txt "NoneType"
  | VBool _ => txt "bool"
  | VInt _ => txt "int"
  | VStr _ => txt "str"
  end.

Inductive exn : Type :=
| KeyError (key : pyval)
| IndexError
| UnboundLocalError (name : pystr)
| AttributeError (obj : pyval) (attr : pystr)
| FileNotFoundError (path : pystr)
| ReError (pattern : pystr)
| ExternalError (text : pystr).

(** A computation that may raise. *)
Abbreviation result A := (exn + A)%type.
Abbreviation Raised e := (inl e) (only parsing).
Abbreviation Returned a := (inr a) (only parsing).

(** ** The URL validator *)

Definition PLATFORMS : list pystr := [txt "YouTube"; txt "TikTok"; txt "Facebook"].
Definition QUALITIES : list pystr := [txt "360p"; txt "720p"; txt "1080p"; txt "2k"].

(** The dict [patterns], in the order it is written. *)
Definition patterns : list (pystr * pystr) :=
  [ (txt "YouTube", txt "(https?://)?(www\.)?(youtube\.com|youtu\.be)/.+");
    (txt "TikTok", txt "(https?://)?(www\.|vm\.|vt\.)?tiktok\.com/.+");
    (txt "Facebook", txt "(https?://)?(www\.|m\.)?facebook\.com/.+") ].

Fixpoint assoc {A} (k : pystr) (l : list (pystr * A)) : option A :=
  match l with
  | [] => None
  | (k', v) :: l' => if decide (k = k') then Some v else assoc k l'
  end.

(** [patterns[platform]]: a key that is not in the dict raises
    [KeyError]; only a [str] can equal one of the keys. *)
Definition patterns_getitem (platform : pyval) : result pystr :=
  match platform with
  | VStr p =>
    match assoc p patterns with
    | Some r => Returned r
    | None => Raised (KeyError platform)
    end
  | _ => Raised (KeyError platform)
  end.

Definition is_valid_url (platform : pyval) (url : pystr) : result bool :=
  match patterns_getitem platform with
  | inl e => Raised e
  | inr pattern =>
    match re_compile pattern with
    | Some r => Returned (re_match r url)
    | None => Raised (ReError pattern)
    end
  end.

(** What the three patterns compile to. *)

(** [(https?://)?] *)
Definition re_scheme : regex :=
  Opt (Lit_then (txt "http") (Seq (Opt (Chr 115)) (Lit (txt "://")))).

(** [/.+] *)
Definition re_path : regex := Seq (Chr 47) (Seq (Plus Dot) Eps).

Definition pattern_YouTube : regex :=
  Seq re_scheme
 (Seq (Opt (Lit (txt "www.")))
 (Seq (Alt (Lit (txt "youtube.com")) (Lit (txt "youtu.be")))
  re_path)).

Definition pattern_TikTok : regex :=
  Seq re_scheme
 (Seq (Opt (Alt (Lit (txt "www.")) (Alt (Lit (txt "vm.")) (Lit (txt "vt.")))))
 (Lit_then (txt "tiktok.com")
  re_path)).

Definition pattern_Facebook : regex :=
  Seq re_scheme
 (Seq (Opt (Alt (Lit (txt "www.")) (Lit (txt "m."))))
 (Lit_then (txt "facebook.com")
  re_path)).

(** ** The world the handlers run in

    [user_state] is the module's global dict; a session is itself a
    dict from field names to values.  [files] is the part of the file
    system the bot touches: the regular files, with their sizes, each
    under the path text it was written with.  A path text stands for
    itself here: directories are not in [files], and a second
    spelling of a path is another key.
    [trace] records what the handlers did to the outside world, in
    order. *)

Inductive button : Type :=
| InlineKeyboardButton (label : pystr) (callback_data : pystr).

Inductive gw_request : Type :=
| AnswerCallback
| EditMessageText (text : pystr) (markdown : bool)
                  (reply_markup : option (list (list button)))
| ReplyText (text : pystr) (markdown : bool)
            (reply_markup : option (list (list button)))
| ReplyVideo (path : pystr) (caption : pystr).

Record ydl_opts : Type := {
  format : pystr;
  outtmpl : pystr;
  noplaylist : bool;
  quiet : bool;
  socket_timeout : Z;
  retries : Z;
  fragment_retries : Z;
  continuedl : bool;
  noprogress : bool
}.

Inductive log_level : Type := INFO | WARNING | ERROR.

Inductive event : Type :=
| Gateway (req : gw_request)
| Engine (opts : ydl_opts) (url : pystr)
| Makedirs (dir : pystr)
| Remove (path : pystr)
| Log (level : log_level) (text : pystr).

Record World : Type := {
  user_state : gmap Z (gmap string pyval);
  files : gmap pystr N;
  trace : list event
}.

(** The files of [fs], after the engine has written [written]. *)
Definition write_files (written : list (pystr * N)) (fs : gmap pystr N) : gmap pystr N :=
  foldl (fun fs f => <[f.1 := f.2]> fs) fs written.

Definition set_user_state (st : gmap Z (gmap string pyval)) (w : World) : World :=
  {| user_state := st; files := files w; trace := trace w |}.
Definition set_files (fs : gmap pystr N) (w : World) : World :=
  {| user_state := user_state w; files := fs; trace := trace w |}.
Definition add_event (ev : event) (w : World) : World :=
  {| user_state := user_state w; files := files w; trace := trace w ++ [ev] |}.

(** What the extraction engine hands back: the [info] dict (its
    [title], when it has one) and the name [prepare_filename] gives. *)
Record info : Type := { title : option pystr }.

(** One run of [extract_info] and [prepare_filename] under
    [YoutubeDL(ydl_opts)]: the files it leaves on storage, and either
    the exception it raised or what it returned. *)
Record engine_outcome : Type := {
  written : list (pystr * N);
  outcome : result (info * pystr)
}.

(** The external collaborators.  The chat gateway may refuse any
    request with an exception, and so may answer differently after a
    different history;
    [uuid4().hex] is random; the engine is yt-dlp; [repr] of a [str]
    is the interpreter's. *)
Record Env : Type := {
  gateway : list event -> gw_request -> option exn;
  uuid4_hex : list event -> pystr;
  engine : ydl_opts -> pystr -> engine_outcome;
  py_repr_str : pystr -> pystr
}.

(** A handler: a state transformer on the world that returns or
    raises. *)
Definition M (A : Type) : Type := World -> World * result A.

Definition ret {A} (a : A) : M A := fun w => (w, Returned a).
Definition raise {A} (e : exn) : M A := fun w => (w, Raised e).
Definition bind {A B} (m : M A) (k : A -> M B) : M B :=
  fun w => match m w with
           | (w', inr a) => k a w'
           | (w', inl e) => (w', Raised e)
           end.
Definition lift {A} (r : result A) : M A := fun w => (w, r).

Declare Scope handler_scope.
Delimit Scope handler_scope with handler.
Bind Scope handler_scope with M.
Notation "x <- m ;; k" := (bind m (fun x => k))
  (at level 100, m at next level, k at level 200, right associativity) : handler_scope.
Notation "m ;; k" := (bind m (fun _ => k))
  (at level 100, k at level 200, right associativity) : handler_scope.
Local Open Scope handler_scope.

(** [try: body  except Exception as e: handler(e)] *)
Definition try_except {A} (body : M A) (handler : exn -> M A) : M A :=
  fun w => match body w with
           | (w', inl e) => handler e w'
           | r => r
           end.

Definition emit (ev : event) : M unit := fun w => (add_event ev w, Returned tt).

Definition dict_get (d : gmap string pyval) (k : string) (default : pyval) : pyval :=
  match d !! k with
  | Some v => v
  | None => default
  end.

(** [os.path.exists], [os.path.getsize], [os.remove] *)
Definition os_path_exists (p : pystr) : M bool :=
  fun w => (w, Returned (bool_decide (is_Some (files w !! p)))).

Definition os_path_getsize (p : pystr) : M N :=
  fun w => match files w !! p with
           | Some n => (w, Returned n)
           | None => (w, Raised (FileNotFoundError p))
           end.

Definition os_remove (p : pystr) : M unit :=
  fun w => match files w !! p with
           | Some _ => (add_event (Remove p) (set_files (delete p (files w)) w), Returned tt)
           | None => (w, Raised (FileNotFoundError p))
           end.

(** [user_state[user_id]["video_sent"] = b] *)
Definition set_video_sent (user_id : Z) (b : bool) : M unit :=
  fun w => match user_state w !! user_id with
           | Some session =>
             (set_user_state
                (<[user_id := <["video_sent" := VBool b]> session]> (user_state w)) w,
              Returned tt)
           | None => (w, Raised (KeyError (VInt user_id)))
           end.

(** [quality.replace("p", "")] *)
Definition str_replace_p (quality : pyval) : result pystr :=
  match quality with
  | VStr q => Returned (replace_chr 112 [] q)
  | _ => Raised (AttributeError quality (txt "replace"))
  end.

(** [data.split(":")[1]] *)
Definition split_colon_1 (data : pystr) : result pystr :=
  match nth_error (split_chr 58 data) 1 with
  | Some piece => Returned piece
  | None => Raised IndexError
  end.

Definition size_limit : N := 2 * 1024 * 1024 * 1024.

Definition NL : pystr := [LF].

Definition quality_keyboard : list (list button) :=
  map (fun q => [InlineKeyboardButton q (txt "quality:" ++ q)]) QUALITIES.
Definition platform_keyboard : list (list button) :=
  map (fun p => [InlineKeyboardButton p (txt "platform:" ++ p)]) PLATFORMS.

(** The texts of [handle_url]. *)
Definition msg_please_start : pystr :=
  txt "⚠ Please start with /start to choose a platform.".
Definition msg_already_downloaded : pystr :=
  txt "✅ You've already downloaded a video. Start again with /start.".
Definition msg_invalid_url (platform : pyval) : pystr :=
  txt "❌ Invalid URL for " ++ py_str platform ++ txt ". Try again.".
Definition msg_downloading : pystr :=
  txt "⏳ Downloading video, please wait...".
Definition msg_file_not_found : pystr :=
  txt "❌ Download failed: file not found.".
Definition msg_too_large : pystr :=
  txt "⚠ File too large (limit: 2GB). Try lower quality.".
Definition msg_sent : pystr :=
  txt "✅ Video sent successfully!".
Definition msg_error (e_text : pystr) : pystr :=
  txt "Please wait a moment, the video is being downloaded. If it takes too long, please try again later."
  ++ NL ++ NL ++ txt "Error: " ++ e_text.
Definition msg_session_expired : pystr :=
  txt "⚠ Session expired. Please restart with /start.".
Definition msg_removed (file_path : pystr) : pystr :=
  txt "File " ++ file_path ++ txt " removed from downloads directory.".
Definition msg_download_error (e_text : pystr) : pystr :=
  txt "Download error: " ++ e_text.

(** The texts of [start], [menu_handler] and [button_handler]. *)
Definition msg_welcome : pystr :=
  txt "👋 *Welcome to the Video Downloader Bot!*" ++ NL ++ NL ++ txt "Choose an option:".
Definition msg_select_platform : pystr := txt "Select a platform:".
Definition msg_platform_selected (platform : pystr) : pystr :=
  txt "📥 Platform selected: *" ++ platform ++ txt "*" ++ NL
  ++ txt "Now choose video quality:".
Definition msg_quality_selected (quality : pystr) : pystr :=
  txt "🎞 Quality selected: *" ++ quality ++ txt "*" ++ NL
  ++ txt "Now send the video URL:".

Definition make_ydl_opts (output_dir file_token format_height : pystr) : ydl_opts :=
  {| format := txt "best[height<=" ++ format_height ++ txt "]/best";
     outtmpl := output_dir ++ txt "/" ++ file_token ++ txt ".%(ext)s";
     noplaylist := true;
     quiet := true;
     socket_timeout := 120;
     retries := 10;
     fragment_retries := 10;
     continuedl := true;
     noprogress := true |}.

Section Handlers.

Context (env : Env).

(** [str(e)] *)
Definition str_exn (e : exn) : pystr :=
  match e with
  | KeyError (VStr s) => py_repr_str env s
  | KeyError k => py_str k
  | IndexError => txt "list index out of range"
  | UnboundLocalError name =>
    txt "cannot access local variable '" ++ name
    ++ txt "' where it is not associated with a value"
  | AttributeError obj attr =>
    txt "'" ++ py_type_name obj ++ txt "' object has no attribute '" ++ attr ++ txt "'"
  | FileNotFoundError path =>
    txt "[Errno 2] No such file or directory: " ++ py_repr_str env path
  | ReError pattern => txt "invalid pattern " ++ py_repr_str env pattern
  | ExternalError text => text
  end.

(** A request to the chat gateway: recorded, then accepted or refused. *)
Definition gw (req : gw_request) : M unit :=
  fun w => match gateway env (trace w) req with
           | None => (add_event (Gateway req) w, Returned tt)
           | Some e => (add_event (Gateway req) w, Raised e)
           end.

Definition reply_text (text : pystr) : M unit := gw (ReplyText text false None).

(** [uuid4().hex] *)
Definition uuid4_hex_now : M pystr :=
  fun w => (w, Returned (uuid4_hex env (trace w))).

(** [with yt_dlp.YoutubeDL(ydl_opts) as ydl:
       info = ydl.extract_info(message, download=True)
       file_path = ydl.prepare_filename(info)] *)
Definition run_engine (opts : ydl_opts) (url : pystr) : M (info * pystr) :=
  fun w =>
    let o := engine env opts url in
    (add_event (Engine opts url)
       (set_files (write_files (written o) (files w)) w),
     outcome o).

(** *** [/start] *)
Definition start : M unit :=
  gw (ReplyText msg_welcome true
        (Some [[InlineKeyboardButton (txt "📺 Download Video") (txt "menu:download")]])).

(** *** [menu_handler] *)
Definition menu_handler (data : pystr) : M unit :=
  gw AnswerCallback ;;
  if decide (data = txt "menu:download")
  then gw (EditMessageText msg_select_platform false (Some platform_keyboard))
  else ret tt.

(** *** [button_handler] *)
Definition button_handler (user_id : Z) (data : pystr) : M unit :=
  gw AnswerCallback ;;
  if startswith (txt "platform:") data then
    platform <- lift (split_colon_1 data) ;;
    (fun w => (set_user_state
                 (<[user_id := {[ "platform" := VStr platform;
                                  "video_sent" := VBool false ]}]> (user_state w)) w,
               Returned tt)) ;;
    gw (EditMessageText (msg_platform_selected platform) true (Some quality_keyboard))
  else if startswith (txt "quality:") data then
    quality <- lift (split_colon_1 data) ;;
    (fun w =>
       match user_state w !! user_id with
       | Some session =>
         (bind (fun w => (set_user_state
                            (<[user_id := <["quality" := VStr quality]> session]>
                               (user_state w)) w,
                          Returned tt))
               (fun _ => gw (EditMessageText (msg_quality_selected quality) true None))) w
       | None => gw (EditMessageText msg_session_expired false None) w
       end)
  else ret tt.

(** *** [handle_url] *)

(** Lines 117 to 136: up to the assignment of [file_path], which is
    the last thing that happens here. *)
Definition fetch (message : pystr) (quality : pyval) : M (info * pystr) :=
  let output_dir := txt "downloads" in
  emit (Makedirs output_dir) ;;
  hex <- uuid4_hex_now ;;
  let file_token := firstn 10 hex in
  format_height <- lift (str_replace_p quality) ;;
  run_engine (make_ydl_opts output_dir file_token format_height) message.

(** Lines 138 to 156: [file_path] is bound. *)
Definition deliver (user_id : Z) (i : info) (file_path : pystr) : M unit :=
  found <- os_path_exists file_path ;;
  if negb found then reply_text msg_file_not_found
  else
    size <- os_path_getsize file_path ;;
    if size_limit <? size then
      reply_text msg_too_large ;;
      os_remove file_path
    else
      gw (ReplyVideo file_path (default (txt "Downloaded video") (title i))) ;;
      still <- os_path_exists file_path ;;
      (if still
       then os_remove file_path ;;
            emit (Log INFO (msg_removed file_path))
       else ret tt) ;;
      set_video_sent user_id true ;;
      reply_text msg_sent.

(** Lines 158 to 164.  [file_path] is [None] when the exception came
    before line 136 had assigned the local variable: reading it then
    raises. *)
Definition on_error (user_id : Z) (file_path : option pystr) (e : exn) : M unit :=
  emit (Log ERROR (msg_download_error (str_exn e))) ;;
  reply_text (msg_error (str_exn e)) ;;
  match file_path with
  | None => raise (UnboundLocalError (txt "file_path"))
  | Some p =>
    found <- os_path_exists p ;;
    (if found then os_remove p else ret tt) ;;
    set_video_sent user_id false
  end.

(** The [try] statement of lines 116 to 164: one handler for the
    whole body; what it finds in [file_path] depends on how far the
    body got. *)
Definition download (user_id : Z) (message : pystr) (quality : pyval) : M unit :=
  fun w =>
    match fetch message quality w with
    | (w1, inl e) => on_error user_id None e w1
    | (w1, inr (i, file_path)) =>
      try_except (deliver user_id i file_path)
                 (on_error user_id (Some file_path)) w1
    end.

Definition handle_url (user_id : Z) (text : pystr) : M unit :=
  let message := strip text in
  fun w =>
    match user_state w !! user_id with
    | None => reply_text msg_please_start w
    | Some session =>
      if truthy (dict_get session "video_sent" VNone)
      then reply_text msg_already_downloaded w
      else
        let platform := dict_get session "platform" VNone in
        let quality := dict_get session "quality" (VStr (txt "720p")) in
        (valid <- lift (is_valid_url platform message) ;;
         if negb valid then reply_text (msg_invalid_url platform)
         else
           reply_text msg_downloading ;;
           download user_id message quality) w
    end.

(** *** The application

    What [main] registers: [/start], the callback queries whose data
    [re.match]es [^menu:], every other callback query, and the text
    messages that are not commands. *)
Inductive update : Type :=
| CommandStart (user_id : Z)
| CallbackQuery (user_id : Z) (data : pystr)
| TextMessage (user_id : Z) (text : pystr).

Definition dispatch (u : update) : M unit :=
  match u with
  | CommandStart _ => start
  | CallbackQuery user_id data =>
    if re_match (Lit (txt "menu:")) data then menu_handler data
    else button_handler user_id data
  | TextMessage user_id text => handle_url user_id text
  end.

(** [error_handler] *)
Definition error_handler (e : exn) : M unit :=
  emit (Log WARNING (txt "Error: " ++ str_exn e)).

(** One update through the application: an exception that escapes a
    handler goes to [error_handler], and polling goes on. *)
Definition process_update (u : update) (w : World) : World :=
  (try_except (dispatch u) error_handler w).1.

Definition run (us : list update) (w : World) : World :=
  foldl (fun w u => process_update u w) w us.

End Handlers.

Definition initial : World := {| user_state := ∅; files := ∅; trace := [] |}.

(** ** Readings of the world, for the statements below *)

Definition is_engine (ev : event) : bool :=
  match ev with Engine _ _ => true | _ => false end.
Definition is_video (ev : event) : bool :=
  match ev with Gateway (ReplyVideo _ _) => true | _ => false end.

(** The events a handler added to the trace. *)
Definition added (w w' : World) : list event := skipn (length (trace w)) (trace w').

(** The options [handle_url] builds in world [w] (the world in which
    the [try] statement starts) for a quality label [q]. *)
Definition download_opts (env : Env) (w : World) (q : pystr) : ydl_opts :=
  make_ydl_opts (txt "downloads")
    (firstn 10 (uuid4_hex env (trace w ++ [Makedirs (txt "downloads")])))
    (replace_chr 112 [] q).

Definition session_wf (session : gmap string pyval) : Prop :=
  (exists p, session !! "platform" = Some (VStr p)) /\
  (exists b, session !! "video_sent" = Some (VBool b)).

Definition store_wf (st : gmap Z (gmap string pyval)) : Prop :=
  forall user_id session, st !! user_id = Some session -> session_wf session.

Definition sent_flag (w : World) (user_id : Z) : option pyval :=
  match user_state w !! user_id with
  | Some session => session !! "video_sent"
  | None => None
  end.

(** The world after lines 117 to 136, for a quality that is a string. *)
Definition after_engine (env : Env) (w : World) (message q : pystr) : World :=
  {| user_state := user_state w;
     files := write_files
                (written (engine env (download_opts env w q) message)) (files w);
     trace := trace w ++ [Makedirs (txt "downloads");
                          Engine (download_opts env w q) message] |}.

(** The trace of [w'] is the trace of [w] and more. *)
Definition extends (w w' : World) : Prop := exists l, trace w' = trace w ++ l.


(** Every run of [m] relates the world before to the world after. *)
Definition respects {A} (R : World -> World -> Prop) (m : M A) : Prop :=
  forall w, R w (m w).1.

(** A gateway that accepts everything, to build examples from. *)
Definition gateway_ok : list event -> gw_request -> option exn := fun _ _ => None.

Definition env_of (eng : ydl_opts -> pystr -> engine_outcome) : Env :=
  {| gateway := gateway_ok;
     uuid4_hex := fun _ => txt "0123456789abcdef0123456789abcdef";
     engine := eng;
     py_repr_str := fun s => txt "'" ++ s ++ txt "'" |}.

(** An engine that leaves a partial file and raises, and one that
    writes a file of a given size and returns its name. *)
Definition engine_raises : ydl_opts -> pystr -> engine_outcome :=
  fun _ _ => {| written := [(txt "downloads/0123456789.mp4.part", 1000)];
                outcome := Raised (ExternalError (txt "network down")) |}.

Definition engine_returns (size : N) : ydl_opts -> pystr -> engine_outcome :=
  fun _ _ => {| written := [(txt "downloads/0123456789.mp4", size)];
                outcome := Returned ({| title := Some (txt "A title") |},
                                     txt "downloads/0123456789.mp4") |}.

(** A user who has picked YouTube and no quality yet. *)
Definition session_youtube : gmap string pyval :=
  {[ "platform" := VStr (txt "YouTube"); "video_sent" := VBool false ]}.

Definition world_youtube : World :=
  {| user_state := {[ 7%Z := session_youtube ]}; files := ∅; trace := [] |}.

(** ** The texts the validator takes, spelled out

    What the three patterns admit, written as words rather than as
    regular expressions: an optional [http://] or [https://], one of
    the hosts listed here for the platform, in lower case, then [/]
    and a path that is not empty and does not start with a line
    feed. *)

Definition spec_schemes : list pystr := [[]; txt "http://"; txt "https://"].

Definition spec_hosts (P : pystr) : list pystr :=
  if decide (P = txt "YouTube") then
    [txt "youtube.com"; txt "youtu.be"; txt "www.youtube.com"; txt "www.youtu.be"]
  else if decide (P = txt "TikTok") then
    [txt "tiktok.com"; txt "www.tiktok.com"; txt "vm.tiktok.com"; txt "vt.tiktok.com"]
  else if decide (P = txt "Facebook") then
    [txt "facebook.com"; txt "www.facebook.com"; txt "m.facebook.com"]
  else [].

Definition spec_url (P : pystr) (u : pystr) : Prop :=
  exists scheme host c rest,
    In scheme spec_schemes /\ In host (spec_hosts P) /\ c <> LF /\
    u = scheme ++ host ++ txt "/" ++ c :: rest.

(** ** The specification's reading of a platform URL

    In the words of the specification: an optional scheme, an
    optional subdomain, the platform's canonical domain or its
    short-link domain, and a path.  A subdomain is one label of
    lower-case letters, digits and hyphens, and a dot. *)

Definition is_label_char (c : N) : bool :=
  ((97 <=? c) && (c <=? 122)) || ((48 <=? c) && (c <=? 57)) || (c =? 45).

Definition is_subdomain (s : pystr) : bool :=
  match rev s with
  | [] => true
  | dot :: label => (dot =? 46) && negb (bool_decide (label = [])) && forallb is_label_char label
  end.

Definition claim_domains (P : pystr) : list pystr :=
  if decide (P = txt "YouTube") then [txt "youtube.com"; txt "youtu.be"]
  else if decide (P = txt "TikTok") then [txt "tiktok.com"]
  else if decide (P = txt "Facebook") then [txt "facebook.com"]
  else [].

Definition claim_url (P : pystr) (u : pystr) : Prop :=
  exists scheme sub domain c rest,
    In scheme spec_schemes /\ is_subdomain sub = true /\
    In domain (claim_domains P) /\
    u = scheme ++ sub ++ domain ++ txt "/" ++ c :: rest.


(** A handler turned the update down with one text and touched
    nothing else. *)
Definition rejected_with (text : pystr) (w w' : World) : Prop :=
  trace w' = trace w ++ [Gateway (ReplyText text false None)] /\
  user_state w' = user_state w /\
  files w' = files w.

(** The updates that start a new session, for any user and for
    [user_id]. *)
Definition selects_platform (u : update) : bool :=
  match u with
  | CallbackQuery _ data => startswith (txt "platform:") data
  | _ => false
  end.

Definition sender (u : update) : Z :=
  match u with
  | CommandStart user_id | CallbackQuery user_id _ | TextMessage user_id _ => user_id
  end.


(** ** Further readings and examples *)

(** How many events of a kind a list holds. *)
Fixpoint count_events (f : event -> bool) (l : list event) : nat :=
  match l with
  | [] => O
  | ev :: l' => (if f ev then 1 else 0)%nat + count_events f l'
  end.

Definition is_remove (ev : event) : bool :=
  match ev with Remove _ => true | _ => false end.

(** The quality of a session, when it has one, is a string. *)
Definition quality_is_str (session : gmap string pyval) : Prop :=
  match session !! "quality" with
  | Some v => exists q, v = VStr q
  | None => True
  end.

Definition store_quality_str (st : gmap Z (gmap string pyval)) : Prop :=
  forall user_id session, st !! user_id = Some session -> quality_is_str session.

(** A gateway that refuses, with [e], the requests that [bad] picks
    and takes the others. *)
Definition gateway_refusing (bad : gw_request -> bool) (e : exn)
  : list event -> gw_request -> option exn :=
  fun _ req => if bad req then Some e else None.

Definition is_video_request (req : gw_request) : bool :=
  match req with ReplyVideo _ _ => true | _ => false end.

Definition is_sent_request (req : gw_request) : bool :=
  match req with
  | ReplyText text _ _ => bool_decide (text = msg_sent)
  | _ => false
  end.

Definition env_with (gw : list event -> gw_request -> option exn)
                    (eng : ydl_opts -> pystr -> engine_outcome) : Env :=
  {| gateway := gw;
     uuid4_hex := fun _ => txt "0123456789abcdef0123456789abcdef";
     engine := eng;
     py_repr_str := fun s => txt "'" ++ s ++ txt "'" |}.

(** An engine that returns a name and writes nothing. *)
Definition engine_writes_nothing : ydl_opts -> pystr -> engine_outcome :=
  fun _ _ => {| written := [];
                outcome := Returned ({| title := None |},
                                     txt "downloads/0123456789.mp4") |}.

(** A name directly inside the working directory, as the output
    template [downloads/<token>.%(ext)s] makes them: [downloads/] and
    a base name that is not empty, holds neither a slash nor a NUL,
    and is neither [.] nor [..].  Two such names that differ are two
    entries of the directory, and none of them is the directory
    itself. *)
Definition downloads_entry (p : pystr) : bool :=
  let base := skipn 10 p in
  startswith (txt "downloads/") p
  && negb (bool_decide (base = []))
  && forallb (fun c => negb (c =? 47) && negb (c =? 0)) base
  && negb (bool_decide (base = txt "."))
  && negb (bool_decide (base = txt "..")).

(** The store is the listing of the working directory: regular files
    directly inside [downloads/], and nothing else. *)
Definition downloads_only (fs : gmap pystr N) : bool :=
  forallb (fun f => downloads_entry f.1) (map_to_list fs).

(** A world with one file in the working directory. *)
Definition world_kept : World :=
  {| user_state := {[ 7%Z := session_youtube ]};
     files := {[ txt "downloads/kept.mp4" := 9 ]};
     trace := [] |}.

Arguments txt : simpl never.
Arguments msg_invalid_url : simpl never.
Arguments msg_error : simpl never.
Arguments msg_removed : simpl never.
Arguments msg_download_error : simpl never.
Arguments msg_platform_selected : simpl never.
Arguments msg_quality_selected : simpl never.
Arguments make_ydl_opts : simpl never.
Arguments str_exn : simpl never.
Arguments strip : simpl never.

(** * Properties *)

(** ** Regular expressions: the matcher against the words *)

Lemma nullable_lang r : nullable r = true <-> lang r [].
Proof.
  induction r; simpl.
  - split; [discriminate | tauto].
  - tauto.
  - split; discriminate.
  - split; [discriminate | intros (c & H & _); discriminate].
  - rewrite andb_true_iff, IHr1, IHr2. split.
    + intros [H1 H2]. exists [], []. auto.
    + intros (u & v & H & H1 & H2).
      symmetry in H. apply app_eq_nil in H as [-> ->]. auto.
  - rewrite orb_true_iff, IHr1, IHr2. tauto.
  - split; [intros _; constructor | reflexivity].
Qed.

Lemma star_of_cons_inv (L : pystr -> Prop) c s :
  star_of L (c :: s) ->
  exists u v, s = u ++ v /\ L (c :: u) /\ star_of L v.
Proof.
  intros H. remember (c :: s) as t eqn:Ht. revert c s Ht.
  induction H as [|u v Hu Hv IH]; intros c s Ht; [discriminate|].
  destruct u as [|d u]; simpl in Ht.
  - apply (IH c s Ht).
  - injection Ht as -> <-. exists u, v. auto.
Qed.

Lemma deriv_lang c r : forall s, lang (deriv c r) s <-> lang r (c :: s).
Proof.
  induction r; intros s; simpl.
  - tauto.
  - split; [tauto | discriminate].
  - destruct (N.eqb_spec c c0) as [->|Hne]; simpl.
    + split; [intros ->; reflexivity | intros H; injection H; auto].
    + split; [tauto | intros H; injection H; intros; subst; congruence].
  - destruct (N.eqb_spec c LF) as [->|Hne]; simpl.
    + split; [tauto | intros (d & H & Hd); injection H; intros; subst; congruence].
    + split.
      * intros ->. exists c. auto.
      * intros (d & H & Hd). injection H; auto.
  - destruct (nullable r1) eqn:Hn; simpl.
    + split.
      * intros [(u & v & -> & Hu & Hv) | H].
        -- exists (c :: u), v. rewrite <- IHr1. auto.
        -- exists [], (c :: s). rewrite <- IHr2, <- nullable_lang. auto.
      * intros (u & v & H & Hu & Hv). destruct u as [|d u]; simpl in H.
        -- right. rewrite IHr2, H. exact Hv.
        -- injection H as <- ->. left. exists u, v. rewrite IHr1. auto.
    + split.
      * intros (u & v & -> & Hu & Hv). exists (c :: u), v. rewrite <- IHr1. auto.
      * intros (u & v & H & Hu & Hv). destruct u as [|d u]; simpl in H.
        -- apply nullable_lang in Hu. congruence.
        -- injection H as <- ->. exists u, v. rewrite IHr1. auto.
  - rewrite IHr1, IHr2. tauto.
  - split.
    + intros (u & v & -> & Hu & Hv). apply (star_app _ (c :: u) v); [|exact Hv].
      apply IHr. exact Hu.
    + intros H. apply star_of_cons_inv in H as (u & v & -> & Hu & Hv).
      exists u, v. rewrite IHr. auto.
Qed.

(** [re_match] is true exactly when some prefix of the text is a word
    of the pattern. *)
Lemma re_match_spec s : forall r,
  re_match r s = true <-> exists p q, s = p ++ q /\ lang r p.
Proof.
  induction s as [|c s IH]; intros r; simpl; rewrite orb_true_iff.
  - rewrite nullable_lang. split.
    + intros [H | H]; [|discriminate]. exists [], []. auto.
    + intros (p & q & H & Hp). symmetry in H. apply app_eq_nil in H as [-> _]. auto.
  - rewrite nullable_lang, IH. split.
    + intros [H | (p & q & -> & Hp)].
      * exists [], (c :: s). auto.
      * exists (c :: p), q. rewrite <- deriv_lang. auto.
    + intros (p & q & H & Hp). destruct p as [|d p]; simpl in H.
      * left. exact Hp.
      * injection H as <- ->. right. exists p, q. rewrite deriv_lang. auto.
Qed.

Lemma lang_Lit_then t r : forall s,
  lang (Lit_then t r) s <-> exists v, s = t ++ v /\ lang r v.
Proof.
  induction t as [|c t IH]; intros s; simpl.
  - split; [intros H; exists s; auto | intros (v & -> & H); exact H].
  - split.
    + intros (u & v & -> & -> & Hv). apply IH in Hv as (v' & -> & Hv'). eauto.
    + intros (v & -> & Hv). exists [c], (t ++ v). rewrite IH. eauto.
Qed.

Lemma lang_Lit t s : lang (Lit t) s <-> s = t.
Proof.
  unfold Lit. rewrite lang_Lit_then. split.
  - intros (v & -> & ->). apply app_nil_r.
  - intros ->. exists []. split; [symmetry; apply app_nil_r | reflexivity].
Qed.

Lemma lang_Opt r s : lang (Opt r) s <-> s = [] \/ lang r s.
Proof. simpl. tauto. Qed.

Lemma lang_Seq a b s :
  lang (Seq a b) s <-> exists u v, s = u ++ v /\ lang a u /\ lang b v.
Proof. reflexivity. Qed.

Lemma lang_Alt a b s : lang (Alt a b) s <-> lang a s \/ lang b s.
Proof. reflexivity. Qed.

(** A prefix in [.+]: a first character that is not a line feed. *)
Lemma prefix_plus_dot s :
  (exists p q, s = p ++ q /\ lang (Plus Dot) p) <->
  exists c rest, s = c :: rest /\ c <> LF.
Proof.
  split.
  - intros (p & q & -> & u & v & -> & (c & -> & Hc) & _).
    exists c, (v ++ q). auto.
  - intros (c & rest & -> & Hc). exists [c], rest. split; [reflexivity|].
    exists [c], []. split; [reflexivity|]. split; [exists c; auto | constructor].
Qed.

(** ** The three patterns *)

Lemma lang_re_scheme a : lang re_scheme a <-> In a spec_schemes.
Proof.
  unfold re_scheme. rewrite lang_Opt, lang_Lit_then. split.
  - intros [-> | (? & -> & s & v & -> & Hs & Hv)].
    + left. reflexivity.
    + apply lang_Lit in Hv. apply lang_Opt in Hs. subst.
      destruct Hs as [-> | ->]; [right; left | right; right; left]; reflexivity.
  - intros [<- | [<- | [<- | []]]].
    + left. reflexivity.
    + right. exists (txt "://"). split; [reflexivity|].
      exists [], (txt "://"). rewrite lang_Opt, lang_Lit. auto.
    + right. exists (txt "s://"). split; [reflexivity|].
      exists [115], (txt "://"). rewrite lang_Opt, lang_Lit. simpl. auto.
Qed.

(** A prefix in [/.+]: a slash and a character that is not a line
    feed. *)
Lemma prefix_re_path s :
  (exists p q, s = p ++ q /\ lang re_path p) <->
  exists ch rest, s = 47 :: ch :: rest /\ ch <> LF.
Proof.
  split.
  - intros (p & q & -> & ? & d0 & -> & -> & d & ? & -> & Hd & ->).
    rewrite app_nil_r.
    assert (Hpre : exists p' q', d ++ q = p' ++ q' /\ lang (Plus Dot) p')
      by (exists d, q; auto).
    apply prefix_plus_dot in Hpre as (ch & rest & Hd' & Hch).
    exists ch, rest. simpl. rewrite Hd'. auto.
  - intros (ch & rest & -> & Hch). exists [47; ch], rest. split; [reflexivity|].
    exists [47], [ch]. repeat split; auto.
    exists [ch], []. repeat split; auto.
    exists [ch], []. repeat split; [exists ch; auto | constructor].
Qed.

(** The shape the three patterns share: scheme, subdomain, and a rest
    that is a domain followed by the path. *)
Lemma re_match_url sub domain_path (domain : pystr -> Prop) u :
  (forall s, lang domain_path s <->
             exists c v, s = c ++ v /\ domain c /\ lang re_path v) ->
  re_match (Seq re_scheme (Seq sub domain_path)) u = true <->
  exists a b c ch rest,
    In a spec_schemes /\ lang sub b /\ domain c /\ ch <> LF /\
    u = a ++ (b ++ c) ++ txt "/" ++ ch :: rest.
Proof.
  intros Hdp. rewrite re_match_spec. split.
  - intros (p & q & -> & a & p1 & -> & Ha & b & p2 & -> & Hb & Hrest).
    apply Hdp in Hrest as (c & v & -> & Hc & Hv).
    assert (Hpre : exists p' q', v ++ q = p' ++ q' /\ lang re_path p')
      by (exists v, q; auto).
    apply prefix_re_path in Hpre as (ch & rest & Hv' & Hch).
    exists a, b, c, ch, rest. rewrite <- lang_re_scheme.
    repeat split; auto.
    rewrite <- !app_assoc. rewrite Hv'. reflexivity.
  - intros (a & b & c & ch & rest & Ha & Hb & Hc & Hch & ->).
    destruct (proj2 (prefix_re_path (47 :: ch :: rest))) as (v & q & Hv & Hlang);
      [eauto|].
    exists (a ++ b ++ c ++ v), q. split.
    + change (txt "/" ++ ch :: rest) with (47 :: ch :: rest).
      rewrite Hv, <- !app_assoc. reflexivity.
    + exists a, (b ++ c ++ v). rewrite lang_re_scheme.
      repeat split; auto.
      exists b, (c ++ v). repeat split; auto.
      apply Hdp. eauto.
Qed.

Lemma domain_path_Seq dom s :
  lang (Seq dom re_path) s <->
  exists c v, s = c ++ v /\ lang dom c /\ lang re_path v.
Proof. reflexivity. Qed.

Lemma domain_path_Lit d s :
  lang (Lit_then d re_path) s <->
  exists c v, s = c ++ v /\ c = d /\ lang re_path v.
Proof.
  rewrite lang_Lit_then. split.
  - intros (v & -> & Hv). eauto.
  - intros (c & v & -> & -> & Hv). eauto.
Qed.

Ltac lang_cases :=
  repeat match goal with
  | H : lang (Opt _) _ |- _ => apply lang_Opt in H as [-> | H]
  | H : lang (Alt _ _) _ |- _ => apply lang_Alt in H as [H | H]
  | H : lang (Lit _) _ |- _ => apply lang_Lit in H; subst
  end.

Ltac host_listed := vm_compute; tauto.

Ltac lang_word :=
  first
    [ apply lang_Lit; reflexivity
    | apply lang_Opt; first [ solve [left; reflexivity] | right; lang_word ]
    | apply lang_Alt; first [ solve [left; lang_word] | right; lang_word ] ].

Lemma pattern_YouTube_spec u :
  re_match pattern_YouTube u = true <-> spec_url (txt "YouTube") u.
Proof.
  unfold pattern_YouTube, spec_url.
  rewrite (re_match_url _ _ _ u (domain_path_Seq _)). split.
  - intros (a & b & c & ch & rest & Ha & Hb & Hc & Hch & ->).
    exists a, (b ++ c), ch, rest. repeat split; auto.
    lang_cases; host_listed.
  - intros (a & h & ch & rest & Ha & Hh & Hch & ->).
    vm_compute in Hh. destruct Hh as [<- | [<- | [<- | [<- | []]]]].
    + exists a, [], (txt "youtube.com"), ch, rest. repeat split; auto; lang_word.
    + exists a, [], (txt "youtu.be"), ch, rest. repeat split; auto; lang_word.
    + exists a, (txt "www."), (txt "youtube.com"), ch, rest. repeat split; auto; lang_word.
    + exists a, (txt "www."), (txt "youtu.be"), ch, rest. repeat split; auto; lang_word.
Qed.

Lemma pattern_TikTok_spec u :
  re_match pattern_TikTok u = true <-> spec_url (txt "TikTok") u.
Proof.
  unfold pattern_TikTok, spec_url.
  rewrite (re_match_url _ _ _ u (domain_path_Lit (txt "tiktok.com"))). split.
  - intros (a & b & c & ch & rest & Ha & Hb & -> & Hch & ->).
    exists a, (b ++ txt "tiktok.com"), ch, rest. repeat split; auto.
    lang_cases; host_listed.
  - intros (a & h & ch & rest & Ha & Hh & Hch & ->).
    vm_compute in Hh. destruct Hh as [<- | [<- | [<- | [<- | []]]]].
    + exists a, [], (txt "tiktok.com"), ch, rest. repeat split; auto; lang_word.
    + exists a, (txt "www."), (txt "tiktok.com"), ch, rest. repeat split; auto; lang_word.
    + exists a, (txt "vm."), (txt "tiktok.com"), ch, rest. repeat split; auto; lang_word.
    + exists a, (txt "vt."), (txt "tiktok.com"), ch, rest. repeat split; auto; lang_word.
Qed.

Lemma pattern_Facebook_spec u :
  re_match pattern_Facebook u = true <-> spec_url (txt "Facebook") u.
Proof.
  unfold pattern_Facebook, spec_url.
  rewrite (re_match_url _ _ _ u (domain_path_Lit (txt "facebook.com"))). split.
  - intros (a & b & c & ch & rest & Ha & Hb & -> & Hch & ->).
    exists a, (b ++ txt "facebook.com"), ch, rest. repeat split; auto.
    lang_cases; host_listed.
  - intros (a & h & ch & rest & Ha & Hh & Hch & ->).
    vm_compute in Hh. destruct Hh as [<- | [<- | [<- | []]]].
    + exists a, [], (txt "facebook.com"), ch, rest. repeat split; auto; lang_word.
    + exists a, (txt "www."), (txt "facebook.com"), ch, rest. repeat split; auto; lang_word.
    + exists a, (txt "m."), (txt "facebook.com"), ch, rest. repeat split; auto; lang_word.
Qed.

(** The patterns of the source, compiled. *)
Lemma re_compile_patterns :
  map (fun kv => (kv.1, re_compile kv.2)) patterns
  = [ (txt "YouTube", Some pattern_YouTube);
      (txt "TikTok", Some pattern_TikTok);
      (txt "Facebook", Some pattern_Facebook) ].
Proof. vm_compute. reflexivity. Qed.

Lemma is_valid_url_YouTube u :
  is_valid_url (VStr (txt "YouTube")) u = Returned (re_match pattern_YouTube u).
Proof. reflexivity. Qed.

Lemma is_valid_url_TikTok u :
  is_valid_url (VStr (txt "TikTok")) u = Returned (re_match pattern_TikTok u).
Proof. reflexivity. Qed.

Lemma is_valid_url_Facebook u :
  is_valid_url (VStr (txt "Facebook")) u = Returned (re_match pattern_Facebook u).
Proof. reflexivity. Qed.

(** On a platform of the table the validator returns what the
    specification's reading says. *)
Lemma is_valid_url_listed P u :
  In P PLATFORMS ->
  exists b, is_valid_url (VStr P) u = Returned b /\ (b = true <-> spec_url P u).
Proof.
  intros [<- | [<- | [<- | []]]].
  - exists (re_match pattern_YouTube u).
    split; [apply is_valid_url_YouTube | apply pattern_YouTube_spec].
  - exists (re_match pattern_TikTok u).
    split; [apply is_valid_url_TikTok | apply pattern_TikTok_spec].
  - exists (re_match pattern_Facebook u).
    split; [apply is_valid_url_Facebook | apply pattern_Facebook_spec].
Qed.

Lemma is_valid_url_unlisted P u :
  ~ In P PLATFORMS -> is_valid_url (VStr P) u = Raised (KeyError (VStr P)).
Proof.
  intros HP. unfold is_valid_url, patterns_getitem, patterns, assoc.
  repeat case_decide; subst; try reflexivity; exfalso; apply HP; vm_compute; tauto.
Qed.

(** ** The validator *)

(** Every text of the patterns is a URL of the platform in the
    specification's reading. *)
Lemma spec_url_claim_url P u : spec_url P u -> claim_url P u.
Proof.
  intros (s & h & c & rest & Hs & Hh & _ & ->).
  unfold spec_hosts in Hh. unfold claim_url.
  repeat case_decide; subst; simpl in Hh;
    repeat match type of Hh with _ \/ _ => destruct Hh as [Hh | Hh] end;
    try contradiction; subst h.
  - exists s, [], (txt "youtube.com"), c, rest. vm_compute in Hs |- *. tauto.
  - exists s, [], (txt "youtu.be"), c, rest. vm_compute in Hs |- *. tauto.
  - exists s, (txt "www."), (txt "youtube.com"), c, rest. vm_compute in Hs |- *. tauto.
  - exists s, (txt "www."), (txt "youtu.be"), c, rest. vm_compute in Hs |- *. tauto.
  - exists s, [], (txt "tiktok.com"), c, rest. vm_compute in Hs |- *. tauto.
  - exists s, (txt "www."), (txt "tiktok.com"), c, rest. vm_compute in Hs |- *. tauto.
  - exists s, (txt "vm."), (txt "tiktok.com"), c, rest. vm_compute in Hs |- *. tauto.
  - exists s, (txt "vt."), (txt "tiktok.com"), c, rest. vm_compute in Hs |- *. tauto.
  - exists s, [], (txt "facebook.com"), c, rest. vm_compute in Hs |- *. tauto.
  - exists s, (txt "www."), (txt "facebook.com"), c, rest. vm_compute in Hs |- *. tauto.
  - exists s, (txt "m."), (txt "facebook.com"), c, rest. vm_compute in Hs |- *. tauto.
Qed.

(** C1, as the claim has it, fails: [https://m.youtube.com/watch?v=abc]
    has an [https] scheme, the subdomain [m.], YouTube's canonical
    domain and a path, and [is_valid_url] returns [False] on it for
    YouTube; the pattern knows no subdomain but [www.]. *)
Lemma mobile_youtube_is_refused :
  let u := txt "https://m.youtube.com/watch?v=abc" in
  claim_url (txt "YouTube") u /\
  is_valid_url (VStr (txt "YouTube")) u = Returned false.
Proof.
  split; [|reflexivity].
  exists (txt "https://"), (txt "m."), (txt "youtube.com"), 119, (txt "atch?v=abc").
  vm_compute. tauto.
Qed.

(** C1, amended.  For each of the three platforms, [is_valid_url]
    returns [True] exactly on the texts made of an optional [http://]
    or [https://], one of the hosts its pattern spells out, in lower
    case ([youtube.com] and the short [youtu.be], bare or under
    [www.]; [tiktok.com], bare or under [www.] or the short-link
    [vm.] and [vt.]; [facebook.com], bare or under [www.] or the
    mobile [m.]), a slash and a path that is not empty and does not
    begin with a line feed; on every other text it returns [False].
    So it returns [False] on every text that is not, in the
    specification's reading, a URL of the platform's domain: on the
    URLs of any other domain. *)
Theorem is_valid_url_domains (P u : pystr) :
  In P PLATFORMS ->
  (spec_url P u -> is_valid_url (VStr P) u = Returned true) /\
  (~ spec_url P u -> is_valid_url (VStr P) u = Returned false) /\
  (~ claim_url P u -> is_valid_url (VStr P) u = Returned false).
Proof.
  intros HP. destruct (is_valid_url_listed P u HP) as (b & -> & Hb).
  assert (Hfalse : ~ spec_url P u -> @inr exn bool b = Returned false).
  { intros H. f_equal. destruct b; [|reflexivity]. exfalso. apply H, Hb. reflexivity. }
  split; [|split].
  - intros H. f_equal. apply Hb. exact H.
  - exact Hfalse.
  - intros H. apply Hfalse. intros Hspec. apply H, spec_url_claim_url, Hspec.
Qed.

Lemma is_valid_url_domains_witness :
  In (txt "YouTube") PLATFORMS /\
  is_valid_url (VStr (txt "YouTube")) (txt "https://youtu.be/abc123") = Returned true.
Proof.
  assert (HP : In (txt "YouTube") PLATFORMS) by (vm_compute; tauto).
  split; [exact HP|].
  apply (proj1 (is_valid_url_domains (txt "YouTube") (txt "https://youtu.be/abc123") HP)).
  exists (txt "https://"), (txt "youtu.be"), 97, (txt "bc123").
  vm_compute. intuition discriminate.
Defined.

(** C9, as the claim has it, fails: a platform string that is not a
    key of [patterns] makes the lookup raise [KeyError]. *)
Lemma is_valid_url_unknown_platform_raises :
  is_valid_url (VStr (txt "Instagram")) (txt "https://instagram.com/p/abc")
  = Raised (KeyError (VStr (txt "Instagram"))) /\
  ~ (exists b, is_valid_url (VStr (txt "Instagram")) (txt "https://instagram.com/p/abc")
               = Returned b).
Proof.
  split; [reflexivity|]. intros [b H]. vm_compute in H. discriminate.
Qed.

(** C9, amended.  [is_valid_url] is a function of its two arguments
    alone.  For a platform that is one of the three keys of
    [patterns] and every URL string, the empty and the malformed ones
    included, it returns a Boolean and does not raise, and the Boolean
    is [False] on every text that is not of the platform's shape.  For
    any other platform string it raises [KeyError]. *)
Theorem is_valid_url_never_raises_on_table (P u : pystr) :
  (In P PLATFORMS ->
   exists b, is_valid_url (VStr P) u = Returned b /\ (~ spec_url P u -> b = false)) /\
  (~ In P PLATFORMS -> is_valid_url (VStr P) u = Raised (KeyError (VStr P))).
Proof.
  split.
  - intros HP. destruct (is_valid_url_listed P u HP) as (b & Hb & Hspec).
    exists b. split; [exact Hb|]. intros Hn. destruct b; [|reflexivity].
    exfalso. apply Hn, Hspec. reflexivity.
  - apply is_valid_url_unlisted.
Qed.

Lemma is_valid_url_never_raises_on_table_witness :
  In (txt "TikTok") PLATFORMS /\
  exists b, is_valid_url (VStr (txt "TikTok")) [] = Returned b /\
            (~ spec_url (txt "TikTok") [] -> b = false).
Proof.
  assert (HP : In (txt "TikTok") PLATFORMS) by (vm_compute; tauto).
  split; [exact HP|].
  exact (proj1 (is_valid_url_never_raises_on_table (txt "TikTok") []) HP).
Defined.

(** ** What every run of a handler respects

    A relation between the world before and the world after that is
    reflexive and transitive and that each elementary step of a
    handler respects is respected by the handler. *)

Section Respects.

Context (env : Env) (R : World -> World -> Prop).
Hypothesis R_refl : forall w, R w w.
Hypothesis R_trans : forall w1 w2 w3, R w1 w2 -> R w2 w3 -> R w1 w3.
Hypothesis R_event : forall ev w, R w (add_event ev w).
Hypothesis R_files : forall fs w, R w (set_files fs w).

Lemma respects_ret {A} (a : A) : respects R (ret a).
Proof. intros w. apply R_refl. Qed.

Lemma respects_raise {A} e : respects R (@raise A e).
Proof. intros w. apply R_refl. Qed.

Lemma respects_lift {A} (r : result A) : respects R (lift r).
Proof. intros w. apply R_refl. Qed.

Lemma respects_bind {A B} (m : M A) (k : A -> M B) :
  respects R m -> (forall a, respects R (k a)) -> respects R (bind m k).
Proof.
  intros Hm Hk w. unfold bind. specialize (Hm w).
  destruct (m w) as [w1 [e|a]]; simpl in *; [exact Hm|].
  eapply R_trans; [exact Hm | apply Hk].
Qed.

Lemma respects_try_except {A} (m : M A) (h : exn -> M A) :
  respects R m -> (forall e, respects R (h e)) -> respects R (try_except m h).
Proof.
  intros Hm Hh w. unfold try_except. specialize (Hm w).
  destruct (m w) as [w1 [e|a]]; simpl in *; [|exact Hm].
  eapply R_trans; [exact Hm | apply Hh].
Qed.

Lemma respects_emit ev : respects R (emit ev).
Proof. intros w. apply R_event. Qed.

Lemma respects_gw req : respects R (gw env req).
Proof. intros w. unfold gw. destruct (gateway env (trace w) req); apply R_event. Qed.

Lemma respects_os_path_exists p : respects R (os_path_exists p).
Proof. intros w. apply R_refl. Qed.

Lemma respects_os_path_getsize p : respects R (os_path_getsize p).
Proof. intros w. unfold os_path_getsize. destruct (files w !! p); apply R_refl. Qed.

Lemma respects_os_remove p : respects R (os_remove p).
Proof.
  intros w. unfold os_remove. destruct (files w !! p); [|apply R_refl].
  simpl. eapply R_trans; [apply R_files | apply R_event].
Qed.

Lemma respects_uuid4_hex_now : respects R (uuid4_hex_now env).
Proof. intros w. apply R_refl. Qed.

Lemma respects_run_engine opts url : respects R (run_engine env opts url).
Proof.
  intros w. unfold run_engine. simpl.
  eapply R_trans; [apply R_files | apply R_event].
Qed.

Lemma respects_start : respects R (start env).
Proof. apply respects_gw. Qed.

Lemma respects_menu_handler data : respects R (menu_handler env data).
Proof.
  unfold menu_handler. apply respects_bind; [apply respects_gw|]. intros _.
  case_decide; [apply respects_gw | apply respects_ret].
Qed.

Lemma respects_fetch message quality : respects R (fetch env message quality).
Proof.
  unfold fetch.
  repeat first [ apply respects_bind; [|intros ?] | apply respects_emit
               | apply respects_uuid4_hex_now | apply respects_lift
               | apply respects_run_engine ].
Qed.

(** The steps that write the session of one user. *)
Section User.

Context (user_id : Z).
Hypothesis R_video_sent : forall b w session,
  user_state w !! user_id = Some session ->
  R w (set_user_state (<[user_id := <["video_sent" := VBool b]> session]> (user_state w)) w).

Lemma respects_set_video_sent b : respects R (set_video_sent user_id b).
Proof.
  intros w. unfold set_video_sent.
  destruct (user_state w !! user_id) eqn:E; [|apply R_refl].
  simpl. apply R_video_sent. exact E.
Qed.

Lemma respects_deliver i file_path : respects R (deliver env user_id i file_path).
Proof.
  unfold deliver, reply_text.
  repeat first [ apply respects_bind; [|intros ?] | apply respects_gw
               | apply respects_os_path_exists | apply respects_os_path_getsize
               | apply respects_os_remove | apply respects_emit
               | apply respects_set_video_sent | apply respects_ret
               | match goal with |- respects R (if ?b then _ else _) => destruct b end ].
Qed.

Lemma respects_on_error file_path e : respects R (on_error env user_id file_path e).
Proof.
  unfold on_error, reply_text.
  repeat first [ apply respects_bind; [|intros ?] | apply respects_gw
               | apply respects_os_path_exists | apply respects_os_remove
               | apply respects_emit | apply respects_set_video_sent
               | apply respects_ret | apply respects_raise
               | match goal with
                 | |- respects R (if ?b then _ else _) => destruct b
                 | |- respects R (match ?o with Some _ => _ | None => _ end) => destruct o
                 end ].
Qed.

Lemma respects_download message quality : respects R (download env user_id message quality).
Proof.
  intros w. unfold download.
  pose proof (respects_fetch message quality w) as Hf.
  destruct (fetch env message quality w) as [w1 [e|[i file_path]]]; simpl in Hf.
  - eapply R_trans; [exact Hf | apply respects_on_error].
  - eapply R_trans; [exact Hf|].
    apply respects_try_except; [apply respects_deliver|].
    intros e. apply respects_on_error.
Qed.

Lemma respects_handle_url text : respects R (handle_url env user_id text).
Proof.
  intros w. unfold handle_url.
  destruct (user_state w !! user_id) as [session|]; [|apply respects_gw].
  destruct (truthy _); [apply respects_gw|].
  apply respects_bind; [apply respects_lift|]. intros valid.
  destruct valid; simpl; [|apply respects_gw].
  apply respects_bind; [apply respects_gw|]. intros _.
  apply respects_download.
Qed.

Hypothesis R_quality : forall quality w session,
  user_state w !! user_id = Some session ->
  R w (set_user_state (<[user_id := <["quality" := VStr quality]> session]> (user_state w)) w).

Lemma respects_button_handler_no_platform data :
  startswith (txt "platform:") data = false ->
  respects R (button_handler env user_id data).
Proof.
  intros Hd. unfold button_handler. rewrite Hd.
  apply respects_bind; [apply respects_gw|]. intros _.
  destruct (startswith (txt "quality:") data); [|apply respects_ret].
  apply respects_bind; [apply respects_lift|]. intros quality w.
  destruct (user_state w !! user_id) as [session|] eqn:E; [|apply respects_gw].
  unfold bind. simpl.
  eapply R_trans; [apply R_quality; exact E | apply respects_gw].
Qed.

Hypothesis R_platform : forall platform w,
  R w (set_user_state
         (<[user_id := {[ "platform" := VStr platform; "video_sent" := VBool false ]}]>
            (user_state w)) w).

Lemma respects_button_handler data : respects R (button_handler env user_id data).
Proof.
  destruct (startswith (txt "platform:") data) eqn:Hd;
    [|apply respects_button_handler_no_platform; exact Hd].
  unfold button_handler. rewrite Hd.
  apply respects_bind; [apply respects_gw|]. intros _.
  apply respects_bind; [apply respects_lift|]. intros platform.
  apply respects_bind; [|intros _; apply respects_gw].
  intros w. simpl. apply R_platform.
Qed.

End User.

End Respects.

(** ** The handlers as a whole *)

Section Application.

Context (env : Env) (R : World -> World -> Prop).
Hypothesis R_refl : forall w, R w w.
Hypothesis R_trans : forall w1 w2 w3, R w1 w2 -> R w2 w3 -> R w1 w3.
Hypothesis R_event : forall ev w, R w (add_event ev w).
Hypothesis R_files : forall fs w, R w (set_files fs w).

(** An update that only writes fields of the sender's session. *)
Lemma respects_update_no_platform u :
  (forall b w session,
     user_state w !! sender u = Some session ->
     R w (set_user_state
            (<[sender u := <["video_sent" := VBool b]> session]> (user_state w)) w)) ->
  (forall quality w session,
     user_state w !! sender u = Some session ->
     R w (set_user_state
            (<[sender u := <["quality" := VStr quality]> session]> (user_state w)) w)) ->
  selects_platform u = false ->
  forall w, R w (process_update env u w).
Proof.
  intros Hsent Hquality Hu w. unfold process_update.
  apply respects_try_except; try assumption;
    [|intros e; apply respects_emit; assumption].
  destruct u as [user_id | user_id data | user_id text]; simpl in *.
  - apply respects_start; assumption.
  - destruct (re_match _ data).
    + apply respects_menu_handler; assumption.
    + apply respects_button_handler_no_platform; assumption.
  - apply respects_handle_url; assumption.
Qed.

Lemma respects_update u :
  (forall b w session,
     user_state w !! sender u = Some session ->
     R w (set_user_state
            (<[sender u := <["video_sent" := VBool b]> session]> (user_state w)) w)) ->
  (forall quality w session,
     user_state w !! sender u = Some session ->
     R w (set_user_state
            (<[sender u := <["quality" := VStr quality]> session]> (user_state w)) w)) ->
  (forall platform w,
     R w (set_user_state
            (<[sender u := {[ "platform" := VStr platform; "video_sent" := VBool false ]}]>
               (user_state w)) w)) ->
  forall w, R w (process_update env u w).
Proof.
  intros Hsent Hquality Hplatform w.
  destruct (selects_platform u) eqn:Hu;
    [|apply respects_update_no_platform; assumption].
  unfold process_update.
  apply respects_try_except; try assumption;
    [|intros e; apply respects_emit; assumption].
  destruct u as [user_id | user_id data | user_id text]; simpl in *; try discriminate.
  destruct (re_match _ data).
  - apply respects_menu_handler; assumption.
  - apply respects_button_handler; assumption.
Qed.

End Application.

(** ** Well-formed sessions *)

Lemma session_wf_new platform :
  session_wf {[ "platform" := VStr platform; "video_sent" := VBool false ]}.
Proof. split; [exists platform | exists false]; reflexivity. Qed.

Lemma session_wf_video_sent b session :
  session_wf session -> session_wf (<["video_sent" := VBool b]> session).
Proof.
  intros [[p Hp] _]. split.
  - exists p. rewrite lookup_insert_ne; [exact Hp | discriminate].
  - exists b. apply lookup_insert_eq.
Qed.

Lemma session_wf_quality q session :
  session_wf session -> session_wf (<["quality" := VStr q]> session).
Proof.
  intros [[p Hp] [b Hb]]. split.
  - exists p. rewrite lookup_insert_ne; [exact Hp | discriminate].
  - exists b. rewrite lookup_insert_ne; [exact Hb | discriminate].
Qed.

Lemma store_wf_insert st (user_id : Z) session :
  store_wf st -> session_wf session -> store_wf (<[user_id := session]> st).
Proof.
  intros Hst Hs user_id' session'. rewrite lookup_insert.
  case_decide; [intros [= <-]; exact Hs | apply Hst].
Qed.

Lemma store_wf_empty : store_wf ∅.
Proof. intros user_id session H. rewrite lookup_empty in H. discriminate. Qed.

Lemma process_update_store_wf env u w :
  store_wf (user_state w) -> store_wf (user_state (process_update env u w)).
Proof.
  revert w.
  apply (respects_update env
           (fun w w' => store_wf (user_state w) -> store_wf (user_state w'))); simpl; auto.
  - intros b w session E Hw. apply store_wf_insert; [exact Hw|].
    apply session_wf_video_sent. exact (Hw _ _ E).
  - intros q w session E Hw. apply store_wf_insert; [exact Hw|].
    apply session_wf_quality. exact (Hw _ _ E).
  - intros platform w Hw. apply store_wf_insert; [exact Hw | apply session_wf_new].
Qed.

Lemma run_store_wf env us : forall w,
  store_wf (user_state w) -> store_wf (user_state (run env us w)).
Proof.
  induction us as [|u us IH]; intros w Hw; [exact Hw|].
  apply IH. apply process_update_store_wf. exact Hw.
Qed.

(** Only a platform selection adds a session to the store. *)
Lemma process_update_dom env u w :
  selects_platform u = false ->
  dom (user_state (process_update env u w)) = dom (user_state w).
Proof.
  intros Hu. revert w.
  apply (respects_update_no_platform env
           (fun w w' => dom (user_state w') = dom (user_state w))); simpl; auto.
  - intros w1 w2 w3 H1 H2. congruence.
  - intros b w session E. rewrite dom_insert_L.
    apply subseteq_union_1_L, singleton_subseteq_l. eapply elem_of_dom_2, E.
  - intros q w session E. rewrite dom_insert_L.
    apply subseteq_union_1_L, singleton_subseteq_l. eapply elem_of_dom_2, E.
Qed.

Lemma split_chr_cons sep s : exists piece pieces, split_chr sep s = piece :: pieces.
Proof.
  induction s as [|c s (piece & pieces & IH)]; simpl; [eauto|].
  destruct (c =? sep); [eauto|]. rewrite IH. eauto.
Qed.

Lemma startswith_app p : forall s,
  startswith p s = true -> exists rest, s = p ++ rest.
Proof.
  induction p as [|a p IH]; intros s H; simpl in *; [eauto|].
  destruct s as [|b s]; [discriminate|].
  apply andb_true_iff in H as [Hab H]. apply N.eqb_eq in Hab as ->.
  destruct (IH s H) as [rest ->]. eauto.
Qed.

(** After [platform:] or [quality:] the split has a second piece. *)
Lemma split_colon_1_prefixed (prefix data : pystr) :
  forallb (fun c => negb (c =? 58)) prefix = true ->
  startswith (prefix ++ [58]) data = true ->
  exists piece, split_colon_1 data = Returned piece.
Proof.
  intros Hp H. apply startswith_app in H as [rest ->].
  unfold split_colon_1. rewrite <- app_assoc.
  induction prefix as [|c prefix IH]; simpl in *.
  - destruct (split_chr_cons 58 rest) as (piece & pieces & ->). simpl. eauto.
  - apply andb_true_iff in Hp as [Hc Hp]. apply negb_true_iff in Hc. rewrite Hc.
    destruct (IH Hp) as [piece IH'].
    destruct (split_chr_cons 58 (prefix ++ 58 :: rest)) as (h & t & E).
    rewrite E in *. simpl in *. eauto.
Qed.

Lemma split_colon_1_platform data :
  startswith (txt "platform:") data = true ->
  exists piece, split_colon_1 data = Returned piece.
Proof. apply (split_colon_1_prefixed (txt "platform")). reflexivity. Qed.

Lemma split_colon_1_quality data :
  startswith (txt "quality:") data = true ->
  exists piece, split_colon_1 data = Returned piece.
Proof. apply (split_colon_1_prefixed (txt "quality")). reflexivity. Qed.

Lemma gw_user_state env req w : user_state (gw env req w).1 = user_state w.
Proof. unfold gw. destruct (gateway env (trace w) req); reflexivity. Qed.

Lemma gw_files env req w : files (gw env req w).1 = files w.
Proof. unfold gw. destruct (gateway env (trace w) req); reflexivity. Qed.

Lemma gw_trace env req w : trace (gw env req w).1 = trace w ++ [Gateway req].
Proof. unfold gw. destruct (gateway env (trace w) req); reflexivity. Qed.

(** A platform selection that the gateway lets through writes a fresh
    session: the piece of the payload after the colon, and a flag
    that is [False]. *)
Lemma button_handler_platform env user_id data w :
  startswith (txt "platform:") data = true ->
  gateway env (trace w) AnswerCallback = None ->
  exists p, split_colon_1 data = Returned p /\
    user_state (button_handler env user_id data w).1
    = <[user_id := {[ "platform" := VStr p; "video_sent" := VBool false ]}]> (user_state w).
Proof.
  intros Hd Hgw. destruct (split_colon_1_platform data Hd) as [p Hp].
  exists p. split; [exact Hp|].
  unfold button_handler. rewrite Hd, Hp. unfold bind at 1. unfold gw at 1.
  rewrite Hgw. unfold bind, lift. simpl. apply gw_user_state.
Qed.

(** A quality selection leaves the store as it is or writes the
    [quality] field of the sender's session. *)
Lemma button_handler_quality env user_id data w session :
  startswith (txt "platform:") data = false ->
  startswith (txt "quality:") data = true ->
  user_state w !! user_id = Some session ->
  user_state (button_handler env user_id data w).1 = user_state w \/
  exists q, split_colon_1 data = Returned q /\
    user_state (button_handler env user_id data w).1
    = <[user_id := <["quality" := VStr q]> session]> (user_state w).
Proof.
  intros Hp Hq E. destruct (split_colon_1_quality data Hq) as [q Hsplit].
  unfold button_handler. rewrite Hp, Hq, Hsplit. unfold bind, lift, gw.
  destruct (gateway env (trace w) AnswerCallback); simpl; [left; reflexivity|].
  right. exists q. split; [reflexivity|].
  rewrite E. simpl. destruct (gateway env _ _); reflexivity.
Qed.

(** C10.  From a store in which every session has a [platform] that
    is a string and a [video_sent] that is a Boolean, every sequence
    of updates, through whichever handlers and however they end,
    leads to such a store again; the empty store the bot starts with
    is one.  Only a platform selection adds a session, and the
    session it writes holds the piece of the callback payload after
    the colon and the flag [False].  A quality selection changes no
    field of the session but [quality]. *)
Theorem session_store_well_formed env w :
  store_wf (user_state w) ->
  (forall us, store_wf (user_state (run env us w))) /\
  (forall u, selects_platform u = false ->
     dom (user_state (process_update env u w)) = dom (user_state w)) /\
  (forall user_id data,
     startswith (txt "platform:") data = true ->
     gateway env (trace w) AnswerCallback = None ->
     exists p, split_colon_1 data = Returned p /\
       user_state (button_handler env user_id data w).1 !! user_id
       = Some {[ "platform" := VStr p; "video_sent" := VBool false ]}) /\
  (forall user_id data session,
     startswith (txt "platform:") data = false ->
     startswith (txt "quality:") data = true ->
     user_state w !! user_id = Some session ->
     exists session',
       user_state (button_handler env user_id data w).1 !! user_id = Some session' /\
       session' !! "platform" = session !! "platform" /\
       session' !! "video_sent" = session !! "video_sent" /\
       forall k, k <> "quality" -> session' !! k = session !! k).
Proof.
  intros Hw. split; [|split; [|split]].
  - intros us. apply run_store_wf. exact Hw.
  - intros u Hu. apply process_update_dom. exact Hu.
  - intros user_id data Hd Hgw.
    destruct (button_handler_platform env user_id data w Hd Hgw) as (p & Hp & ->).
    exists p. split; [exact Hp | apply lookup_insert_eq].
  - intros user_id data session Hp Hq E.
    destruct (button_handler_quality env user_id data w session Hp Hq E)
      as [-> | (q & _ & ->)].
    + exists session. auto.
    + exists (<["quality" := VStr q]> session). rewrite lookup_insert_eq.
      repeat split; try (rewrite lookup_insert_ne; [reflexivity | discriminate]).
      intros k Hk. rewrite lookup_insert_ne; [reflexivity | congruence].
Qed.

Lemma session_store_well_formed_witness :
  store_wf (user_state initial) /\
  store_wf (user_state
              (run (env_of (engine_returns 5))
                   [CallbackQuery 7 (txt "platform:YouTube");
                    CallbackQuery 7 (txt "quality:720p");
                    TextMessage 7 (txt "https://youtu.be/abc123")] initial)).
Proof.
  split; [exact store_wf_empty|].
  exact (proj1 (session_store_well_formed (env_of (engine_returns 5)) initial store_wf_empty) _).
Defined.

(** ** The trace only grows *)

Lemma added_app w w' l : trace w' = trace w ++ l -> added w w' = l.
Proof. intros H. unfold added. rewrite H. apply drop_app_length. Qed.

Lemma extends_refl w : extends w w.
Proof. exists []. symmetry. apply app_nil_r. Qed.

Lemma extends_trans w1 w2 w3 : extends w1 w2 -> extends w2 w3 -> extends w1 w3.
Proof. intros [l1 H1] [l2 H2]. exists (l1 ++ l2). rewrite H2, H1. symmetry. apply app_assoc. Qed.

Lemma extends_event ev w : extends w (add_event ev w).
Proof. exists [ev]. reflexivity. Qed.

Lemma extends_files fs w : extends w (set_files fs w).
Proof. apply (extends_refl w). Qed.

Lemma extends_user_state st w : extends w (set_user_state st w).
Proof. apply (extends_refl w). Qed.

Lemma download_extends env user_id message quality w :
  extends w (download env user_id message quality w).1.
Proof.
  apply (respects_download env extends extends_refl extends_trans
           extends_event extends_files user_id).
  intros. apply extends_user_state.
Qed.

(** ** The guards of [handle_url] *)

Lemma rejected_by_reply env text w :
  rejected_with text w (reply_text env text w).1.
Proof.
  unfold rejected_with, reply_text.
  rewrite gw_trace, gw_user_state, gw_files. auto.
Qed.

Lemma rejected_no_engine text w w' :
  rejected_with text w w' -> existsb is_engine (added w w') = false.
Proof. intros (H & _ & _). rewrite (added_app _ _ _ H). reflexivity. Qed.

(** The four ways out of [handle_url] before the [try] statement. *)
Lemma handle_url_no_session env user_id text w :
  user_state w !! user_id = None ->
  handle_url env user_id text w = reply_text env msg_please_start w.
Proof. intros Hs. unfold handle_url. rewrite Hs. reflexivity. Qed.

Lemma handle_url_sent env user_id text w session :
  user_state w !! user_id = Some session ->
  truthy (dict_get session "video_sent" VNone) = true ->
  handle_url env user_id text w = reply_text env msg_already_downloaded w.
Proof. intros Hs Hsent. unfold handle_url. rewrite Hs, Hsent. reflexivity. Qed.

Lemma handle_url_invalid env user_id text w session :
  user_state w !! user_id = Some session ->
  truthy (dict_get session "video_sent" VNone) = false ->
  is_valid_url (dict_get session "platform" VNone) (strip text) = Returned false ->
  handle_url env user_id text w
  = reply_text env (msg_invalid_url (dict_get session "platform" VNone)) w.
Proof.
  intros Hs Hsent Hvalid. unfold handle_url. rewrite Hs, Hsent.
  unfold bind, lift. rewrite Hvalid. reflexivity.
Qed.

Lemma handle_url_validator_raises env user_id text w session e :
  user_state w !! user_id = Some session ->
  truthy (dict_get session "video_sent" VNone) = false ->
  is_valid_url (dict_get session "platform" VNone) (strip text) = Raised e ->
  handle_url env user_id text w = (w, Raised e).
Proof.
  intros Hs Hsent Hvalid. unfold handle_url. rewrite Hs, Hsent.
  unfold bind, lift. rewrite Hvalid. reflexivity.
Qed.

(** Past the three guards [handle_url] announces the download; when
    the gateway takes the announcement the [try] statement follows. *)
Lemma handle_url_valid env user_id text w session :
  user_state w !! user_id = Some session ->
  truthy (dict_get session "video_sent" VNone) = false ->
  is_valid_url (dict_get session "platform" VNone) (strip text) = Returned true ->
  handle_url env user_id text w
  = (reply_text env msg_downloading ;;
     download env user_id (strip text)
              (dict_get session "quality" (VStr (txt "720p")))) w.
Proof.
  intros Hs Hsent Hvalid. unfold handle_url. rewrite Hs, Hsent.
  unfold bind at 1. unfold lift. rewrite Hvalid. reflexivity.
Qed.

(** When the validator raises, it is the lookup in [patterns] that
    raised: the platform is not one of the three keys. *)
Lemma is_valid_url_raises platform u e :
  is_valid_url platform u = Raised e ->
  e = KeyError platform /\ forall P, In P PLATFORMS -> platform <> VStr P.
Proof.
  destruct platform as [| b | z | p]; try (intros [= <-]; split; [reflexivity | discriminate]).
  intros H. destruct (decide (p ∈ PLATFORMS)) as [HP | HP].
  - apply list_elem_of_In in HP.
    destruct (is_valid_url_listed p u HP) as (b & Hb & _). congruence.
  - assert (Hn : ~ In p PLATFORMS) by (intros HP'; apply HP, list_elem_of_In, HP').
    rewrite (is_valid_url_unlisted p u Hn) in H. injection H as <-.
    split; [reflexivity|]. intros P HP' [= ->]. exact (Hn HP').
Qed.

(** C5, as the claim has it, fails: [button_handler] stores whatever
    follows [platform:] in the callback data, so a session can name a
    platform that [patterns] does not have.  For such a session guard
    (c) fails without any report: the validator's [KeyError] leaves
    [handle_url], and the user is sent nothing. *)
Lemma forged_platform_gets_no_reply :
  let env := env_of (engine_returns 5) in
  let w := process_update env (CallbackQuery 7 (txt "platform:Instagram")) initial in
  let text := txt "https://instagram.com/p/abc" in
  let r := handle_url env 7 text w in
  user_state w !! 7%Z
  = Some {[ "platform" := VStr (txt "Instagram"); "video_sent" := VBool false ]} /\
  is_valid_url (VStr (txt "Instagram")) (strip text) <> Returned true /\
  r.2 = Raised (KeyError (VStr (txt "Instagram"))) /\
  added w r.1 = [] /\
  ~ rejected_with (msg_invalid_url (VStr (txt "Instagram"))) w r.1.
Proof.
  intros env w text r.
  split; [reflexivity|]. split; [vm_compute; discriminate|].
  split; [reflexivity|]. split; [vm_compute; reflexivity|].
  intros (H & _). subst r. vm_compute in H. discriminate H.
Qed.

(** C5, amended.  [handle_url] applies three guards, in this order.
    Without a session for the sender it answers that the user should
    start with /start.  With a session whose [video_sent] is true it
    answers that a video has already been downloaded, whatever the
    text.  With a session whose flag is not set, the validator is run
    on the stripped text for the session's platform: when it returns
    [False] the handler answers that the URL is invalid; when it
    raises, the exception is the [KeyError] of a platform that is not
    a key of [patterns], and the handler ends with it and sends
    nothing.  In the three answering cases the answer is all that
    happens, and in the raising case nothing happens: the sessions
    and the files are as before and the engine was not called.  When
    the three guards pass, the handler goes on to the download,
    announcing it first. *)
Theorem handle_url_guards env user_id text w :
  let r := handle_url env user_id text w in
  let w' := r.1 in
  match user_state w !! user_id with
  | None =>
    rejected_with msg_please_start w w' /\ existsb is_engine (added w w') = false
  | Some session =>
    if truthy (dict_get session "video_sent" VNone)
    then rejected_with msg_already_downloaded w w' /\
         existsb is_engine (added w w') = false
    else
      let platform := dict_get session "platform" VNone in
      match is_valid_url platform (strip text) with
      | inr false =>
        rejected_with (msg_invalid_url platform) w w' /\
        existsb is_engine (added w w') = false
      | inr true =>
        exists rest,
          added w w' = Gateway (ReplyText msg_downloading false None) :: rest
      | inl e =>
        r = (w, Raised e) /\
        e = KeyError platform /\
        (forall P, In P PLATFORMS -> platform <> VStr P)
      end
  end.
Proof.
  simpl.
  destruct (user_state w !! user_id) as [session|] eqn:Hs.
  - destruct (truthy _) eqn:Hsent.
    + rewrite (handle_url_sent env user_id text w session Hs Hsent).
      split; [apply rejected_by_reply | eapply rejected_no_engine, rejected_by_reply].
    + destruct (is_valid_url _ _) as [e | [|]] eqn:Hvalid.
      * split; [|exact (is_valid_url_raises _ _ _ Hvalid)].
        exact (handle_url_validator_raises env user_id text w session e Hs Hsent Hvalid).
      * rewrite (handle_url_valid env user_id text w session Hs Hsent Hvalid).
        unfold bind, reply_text, gw.
        destruct (gateway env (trace w) _); simpl.
        -- exists []. apply added_app. reflexivity.
        -- match goal with |- context [download ?e ?u ?m ?q ?w0] =>
             destruct (download_extends e u m q w0) as [l Hl] end.
           exists l. apply added_app. rewrite Hl. simpl.
           rewrite <- app_assoc. reflexivity.
      * rewrite (handle_url_invalid env user_id text w session Hs Hsent Hvalid).
        split; [apply rejected_by_reply | eapply rejected_no_engine, rejected_by_reply].
  - rewrite (handle_url_no_session env user_id text w Hs).
    split; [apply rejected_by_reply | eapply rejected_no_engine, rejected_by_reply].
Qed.

(** ** The download step, statement by statement *)

Lemma fetch_str env message q w :
  fetch env message (VStr q) w
  = (after_engine env w message q,
     outcome (engine env (download_opts env w q) message)).
Proof.
  unfold fetch, bind, emit, uuid4_hex_now, lift, run_engine, after_engine. simpl.
  unfold add_event, set_files. simpl. rewrite <- app_assoc. reflexivity.
Qed.

Ltac added_is :=
  match goal with
  | |- context [added ?w ?w'] =>
    let l := fresh "l" in
    let H := fresh "H" in
    evar (l : list event);
    assert (H : trace w' = trace w ++ l)
      by (subst l; simpl; rewrite <- ?app_assoc; reflexivity);
    rewrite (added_app _ _ _ H); subst l; clear H
  end.


Lemma deliver_missing env user_id i file_path w :
  files w !! file_path = None ->
  deliver env user_id i file_path w = reply_text env msg_file_not_found w.
Proof.
  intros Hfile. unfold deliver, bind, os_path_exists. rewrite Hfile. reflexivity.
Qed.

Ltac branches :=
  repeat (simpl;
          match goal with
          | |- context [gateway ?e ?t ?r] => destruct (gateway e t r) eqn:?
          | |- context [match ?m !! ?k with _ => _ end] => destruct (m !! k) eqn:?
          | |- context [bool_decide (is_Some (?m !! ?k))] => destruct (m !! k) eqn:?
          | |- context [match ?x with Some _ => _ | None => _ end] =>
            is_var x; destruct x
          end);
  simpl.





(** Past the three guards, with the announcement taken by the
    gateway, [handle_url] is the [try] statement. *)
Lemma handle_url_accepted env user_id text w session :
  user_state w !! user_id = Some session ->
  truthy (dict_get session "video_sent" VNone) = false ->
  is_valid_url (dict_get session "platform" VNone) (strip text) = Returned true ->
  gateway env (trace w) (ReplyText msg_downloading false None) = None ->
  handle_url env user_id text w
  = download env user_id (strip text) (dict_get session "quality" (VStr (txt "720p")))
             (add_event (Gateway (ReplyText msg_downloading false None)) w).
Proof.
  intros Hs Hsent Hvalid Hgw.
  rewrite (handle_url_valid env user_id text w session Hs Hsent Hvalid).
  unfold bind, reply_text, gw. rewrite Hgw. reflexivity.
Qed.





(** ** The sent flag *)












(** The path of a successful download: the file is there and small
    enough, and the gateway takes the video and the last message. *)
Lemma deliver_success env user_id i file_path w size session :
  files w !! file_path = Some size ->
  size <= size_limit ->
  user_state w !! user_id = Some session ->
  (forall t req, gateway env t req = None) ->
  deliver env user_id i file_path w
  = ({| user_state := <[user_id := <["video_sent" := VBool true]> session]> (user_state w);
        files := delete file_path (files w);
        trace := trace w ++
                 [Gateway (ReplyVideo file_path (default (txt "Downloaded video") (title i)));
                  Remove file_path;
                  Log INFO (msg_removed file_path);
                  Gateway (ReplyText msg_sent false None)] |},
     Returned tt).
Proof.
  intros Hfile Hsize Hs Hgw.
  unfold deliver, bind, os_path_exists, os_path_getsize, reply_text, gw, os_remove,
    emit, set_video_sent.
  rewrite Hfile. simpl. rewrite Hfile.
  rewrite (proj2 (N.ltb_ge _ _) Hsize). rewrite !Hgw. simpl.
  rewrite Hfile. simpl. rewrite Hfile. simpl. rewrite Hs, Hgw.
  unfold add_event, set_user_state, set_files. simpl.
  rewrite <- !app_assoc. reflexivity.
Qed.

Lemma handle_url_success env user_id text w session q i file_path size :
  let w0 := add_event (Gateway (ReplyText msg_downloading false None)) w in
  user_state w !! user_id = Some session ->
  truthy (dict_get session "video_sent" VNone) = false ->
  is_valid_url (dict_get session "platform" VNone) (strip text) = Returned true ->
  dict_get session "quality" (VStr (txt "720p")) = VStr q ->
  (forall t req, gateway env t req = None) ->
  outcome (engine env (download_opts env w0 q) (strip text)) = Returned (i, file_path) ->
  files (after_engine env w0 (strip text) q) !! file_path = Some size ->
  size <= size_limit ->
  let r := handle_url env user_id text w in
  r.2 = Returned tt /\
  sent_flag r.1 user_id = Some (VBool true) /\
  files r.1 !! file_path = None /\
  added w r.1
  = [Gateway (ReplyText msg_downloading false None);
     Makedirs (txt "downloads");
     Engine (download_opts env w0 q) (strip text);
     Gateway (ReplyVideo file_path (default (txt "Downloaded video") (title i)));
     Remove file_path;
     Log INFO (msg_removed file_path);
     Gateway (ReplyText msg_sent false None)].
Proof.
  intros w0 Hs Hsent Hvalid Hq Hgw Ho Hfile Hsize r. subst r.
  rewrite (handle_url_accepted env user_id text w session Hs Hsent Hvalid (Hgw _ _)).
  rewrite Hq. fold w0. unfold download. rewrite fetch_str, Ho. unfold try_except.
  rewrite (deliver_success env user_id i file_path _ size session Hfile Hsize Hs Hgw).
  simpl. split; [reflexivity|]. split; [|split].
  - unfold sent_flag. simpl. rewrite lookup_insert_eq. apply lookup_insert_eq.
  - apply lookup_delete_eq.
  - apply added_app. simpl. rewrite <- !app_assoc. reflexivity.
Qed.



(** ** From the quality label to the format *)




(** ** When the engine raises *)

(** The handler of the [try] statement, entered before [file_path]
    was assigned: it logs, answers, and raises on reading the
    variable.  Nothing is removed and no session is written. *)
Lemma download_engine_raises env user_id message q w e :
  outcome (engine env (download_opts env w q) message) = Raised e ->
  let r := download env user_id message (VStr q) w in
  let answer := Gateway (ReplyText (msg_error (str_exn env e)) false None) in
  added w r.1 = [Makedirs (txt "downloads");
                 Engine (download_opts env w q) message;
                 Log ERROR (msg_download_error (str_exn env e));
                 answer] /\
  user_state r.1 = user_state w /\
  files r.1 = files (after_engine env w message q) /\
  (exists e', r.2 = Raised e') /\
  (gateway env (trace (after_engine env w message q)
                ++ [Log ERROR (msg_download_error (str_exn env e))])
           (ReplyText (msg_error (str_exn env e)) false None) = None ->
   r.2 = Raised (UnboundLocalError (txt "file_path"))).
Proof.
  intros Ho r answer. subst r answer. unfold download. rewrite fetch_str, Ho.
  unfold on_error, bind, emit, reply_text, gw, raise. simpl.
  destruct (gateway env _ _) as [e'|]; simpl.
  - split; [added_is; reflexivity|]. split; [reflexivity|]. split; [reflexivity|].
    split; [eauto | discriminate].
  - split; [added_is; reflexivity|]. split; [reflexivity|]. split; [reflexivity|].
    split; [eauto | reflexivity].
Qed.

(** C3 at the failing input.  The engine has written a partial file
    and raised; the handler of the [try] statement raises
    [UnboundLocalError] before it removes anything, and the file is
    still on storage when [handle_url] is over. *)
Theorem partial_file_survives_engine_exception :
  let env := env_of engine_raises in
  let r := handle_url env 7 (txt "https://youtu.be/abc123") world_youtube in
  files world_youtube !! txt "downloads/0123456789.mp4.part" = None /\
  files r.1 !! txt "downloads/0123456789.mp4.part" = Some 1000 /\
  r.2 = Raised (UnboundLocalError (txt "file_path")) /\
  files (process_update env (TextMessage 7 (txt "https://youtu.be/abc123")) world_youtube)
  !! txt "downloads/0123456789.mp4.part" = Some 1000.
Proof. vm_compute. auto. Qed.

(** C7 at the failing input.  The engine raises; the user is sent the
    error text; then the handler itself raises [UnboundLocalError],
    which leaves [handle_url], and line 163 is not reached.  The flag
    is [False] as it was before, and sending the URL again calls the
    engine again. *)
Theorem engine_exception_escapes_handle_url :
  let env := env_of engine_raises in
  let url := txt "https://youtu.be/abc123" in
  let r := handle_url env 7 url world_youtube in
  r.2 = Raised (UnboundLocalError (txt "file_path")) /\
  added world_youtube r.1
  = [Gateway (ReplyText msg_downloading false None);
     Makedirs (txt "downloads");
     Engine (make_ydl_opts (txt "downloads") (txt "0123456789") (txt "720")) url;
     Log ERROR (msg_download_error (txt "network down"));
     Gateway (ReplyText (msg_error (txt "network down")) false None)] /\
  user_state r.1 = user_state world_youtube /\
  sent_flag r.1 7 = Some (VBool false) /\
  existsb is_engine (added r.1 (handle_url env 7 url r.1).1) = true.
Proof. vm_compute. auto 10. Qed.

(** ** Small checks of the text functions *)

Example txt_decodes_utf8 : txt "❌ x" = [0x274C; 32; 120].
Proof. reflexivity. Qed.

Example strip_both_ends :
  strip (txt "  https://youtu.be/abc123 " ++ NL) = txt "https://youtu.be/abc123".
Proof. reflexivity. Qed.

Example split_platform : split_colon_1 (txt "platform:YouTube") = Returned (txt "YouTube").
Proof. reflexivity. Qed.

Example split_more_colons : split_colon_1 (txt "platform:a:b") = Returned (txt "a").
Proof. reflexivity. Qed.

Example valid_youtu_be :
  is_valid_url (VStr (txt "YouTube")) (txt "https://youtu.be/abc123") = Returned true.
Proof. reflexivity. Qed.

Example valid_vt_tiktok :
  is_valid_url (VStr (txt "TikTok")) (txt "vt.tiktok.com/ZS1234/") = Returned true.
Proof. reflexivity. Qed.

Example invalid_without_path :
  is_valid_url (VStr (txt "YouTube")) (txt "https://www.youtube.com/") = Returned false.
Proof. reflexivity. Qed.

Example invalid_other_domain :
  is_valid_url (VStr (txt "TikTok")) (txt "https://www.facebook.com/watch?v=1")
  = Returned false.
Proof. reflexivity. Qed.

(** ** The scenarios of the specification *)

(** Start, YouTube, 720p, a [youtu.be] URL, a file of 500 MB: the
    video and the success message; any further text gets the
    already-downloaded answer. *)
Example scenario_success :
  let env := env_of (engine_returns (500 * 1024 * 1024)) in
  let url := txt "https://youtu.be/abc123" in
  let w := run env [CommandStart 7;
                    CallbackQuery 7 (txt "menu:download");
                    CallbackQuery 7 (txt "platform:YouTube");
                    CallbackQuery 7 (txt "quality:720p")] initial in
  let w' := process_update env (TextMessage 7 url) w in
  let w'' := process_update env (TextMessage 7 (txt "anything")) w' in
  added w w'
  = [Gateway (ReplyText msg_downloading false None);
     Makedirs (txt "downloads");
     Engine (make_ydl_opts (txt "downloads") (txt "0123456789") (txt "720")) url;
     Gateway (ReplyVideo (txt "downloads/0123456789.mp4") (txt "A title"));
     Remove (txt "downloads/0123456789.mp4");
     Log INFO (msg_removed (txt "downloads/0123456789.mp4"));
     Gateway (ReplyText msg_sent false None)] /\
  files w' = ∅ /\
  added w' w'' = [Gateway (ReplyText msg_already_downloaded false None)].
Proof. vm_compute. auto. Qed.

(** TikTok and a Facebook URL: the invalid-URL answer, the session as
    it was; a TikTok URL then goes through. *)
Example scenario_wrong_platform :
  let env := env_of (engine_returns 5) in
  let w := run env [CallbackQuery 7 (txt "platform:TikTok");
                    CallbackQuery 7 (txt "quality:360p")] initial in
  let w' := process_update env (TextMessage 7 (txt "https://www.facebook.com/watch?v=1")) w in
  let w'' := process_update env (TextMessage 7 (txt "https://vm.tiktok.com/ZS1234/")) w' in
  added w w' = [Gateway (ReplyText (msg_invalid_url (VStr (txt "TikTok"))) false None)] /\
  user_state w' = user_state w /\
  existsb is_video (added w' w'') = true /\
  sent_flag w'' 7 = Some (VBool true).
Proof. vm_compute. auto. Qed.

(** A platform that is not in [patterns], as a forged callback
    payload can name it: the validator's [KeyError] leaves
    [handle_url], and the user gets no answer. *)
Example scenario_unknown_platform :
  let env := env_of (engine_returns 5) in
  let w := run env [CallbackQuery 7 (txt "platform:Instagram")] initial in
  handle_url env 7 (txt "https://instagram.com/p/abc") w
  = (w, Raised (KeyError (VStr (txt "Instagram")))).
Proof. vm_compute. reflexivity. Qed.

(** * Further properties of the code *)

(** ** The validator looks at a prefix only *)

Lemma re_match_app r s t : re_match r s = true -> re_match r (s ++ t) = true.
Proof.
  rewrite !re_match_spec. intros (p & q & -> & Hp).
  exists p, (q ++ t). split; [symmetry; apply app_assoc | exact Hp].
Qed.

(** X1.  [re.match] anchors the pattern at the start of the text and
    not at its end: a text that [is_valid_url] accepts for a platform
    is still accepted with anything appended to it. *)
Theorem is_valid_url_ignores_suffix (platform : pyval) (u t : pystr) :
  is_valid_url platform u = Returned true ->
  is_valid_url platform (u ++ t) = Returned true.
Proof.
  unfold is_valid_url. destruct (patterns_getitem platform) as [e|pattern]; [discriminate|].
  destruct (re_compile pattern) as [r|]; [|discriminate].
  intros [= H]. f_equal. apply re_match_app. exact H.
Qed.

Lemma is_valid_url_ignores_suffix_witness :
  is_valid_url (VStr (txt "YouTube")) (txt "https://youtu.be/abc") = Returned true /\
  is_valid_url (VStr (txt "YouTube"))
    (txt "https://youtu.be/abc" ++ txt " and https://example.org/") = Returned true.
Proof.
  split; [reflexivity|].
  exact (is_valid_url_ignores_suffix (VStr (txt "YouTube")) (txt "https://youtu.be/abc")
           (txt " and https://example.org/") eq_refl).
Defined.

(** ** No text is a URL of two platforms *)

Lemma is_valid_url_true_listed P u :
  is_valid_url (VStr P) u = Returned true -> In P PLATFORMS /\ spec_url P u.
Proof.
  intros H. destruct (decide (P ∈ PLATFORMS)) as [HP | HP].
  - apply list_elem_of_In in HP. split; [exact HP|].
    destruct (is_valid_url_listed P u HP) as (b & Hb & Hspec).
    apply Hspec. congruence.
  - rewrite is_valid_url_unlisted in H; [discriminate|].
    intros HP'. apply HP, list_elem_of_In, HP'.
Qed.

Ltac clash H := vm_compute in H; discriminate H.

Ltac spec_url_cases H s h c rest :=
  destruct H as (s & h & c & rest & Hs & Hh & _ & H);
  vm_compute in Hs; vm_compute in Hh;
  repeat match type of Hs with _ \/ _ => destruct Hs as [Hs | Hs] end;
  try contradiction; subst s;
  repeat match type of Hh with _ \/ _ => destruct Hh as [Hh | Hh] end;
  try contradiction; subst h.

Lemma spec_url_YouTube_TikTok u :
  spec_url (txt "YouTube") u -> spec_url (txt "TikTok") u -> False.
Proof.
  intros H1 H2.
  spec_url_cases H1 s1 h1 c1 r1; subst u;
    spec_url_cases H2 s2 h2 c2 r2; clash H2.
Qed.

Lemma spec_url_YouTube_Facebook u :
  spec_url (txt "YouTube") u -> spec_url (txt "Facebook") u -> False.
Proof.
  intros H1 H2.
  spec_url_cases H1 s1 h1 c1 r1; subst u;
    spec_url_cases H2 s2 h2 c2 r2; clash H2.
Qed.

Lemma spec_url_TikTok_Facebook u :
  spec_url (txt "TikTok") u -> spec_url (txt "Facebook") u -> False.
Proof.
  intros H1 H2.
  spec_url_cases H1 s1 h1 c1 r1; subst u;
    spec_url_cases H2 s2 h2 c2 r2; clash H2.
Qed.

(** X2.  The three patterns exclude each other: a text that
    [is_valid_url] accepts for one platform string is not accepted
    for any other platform string. *)
Theorem is_valid_url_one_platform (P Q u : pystr) :
  is_valid_url (VStr P) u = Returned true ->
  P <> Q ->
  is_valid_url (VStr Q) u <> Returned true.
Proof.
  intros HP Hne HQ.
  apply is_valid_url_true_listed in HP as [HP HPu].
  apply is_valid_url_true_listed in HQ as [HQ HQu].
  destruct HP as [<- | [<- | [<- | []]]]; destruct HQ as [<- | [<- | [<- | []]]];
    try (apply Hne; reflexivity);
    eauto using spec_url_YouTube_TikTok, spec_url_YouTube_Facebook,
                spec_url_TikTok_Facebook.
Qed.

Lemma is_valid_url_one_platform_witness :
  is_valid_url (VStr (txt "TikTok")) (txt "https://vm.tiktok.com/ZS1/") = Returned true /\
  txt "TikTok" <> txt "Facebook" /\
  is_valid_url (VStr (txt "Facebook")) (txt "https://vm.tiktok.com/ZS1/") <> Returned true.
Proof.
  assert (Hne : txt "TikTok" <> txt "Facebook") by (vm_compute; discriminate).
  split; [reflexivity|]. split; [exact Hne|].
  exact (is_valid_url_one_platform (txt "TikTok") (txt "Facebook")
           (txt "https://vm.tiktok.com/ZS1/") eq_refl Hne).
Defined.

(** ** White space around the message *)

Lemma lstrip_spaces a x :
  Forall (fun c => is_space c = true) a -> lstrip (a ++ x) = lstrip x.
Proof.
  induction 1 as [|c a Hc _ IH]; [reflexivity|]. simpl. rewrite Hc. exact IH.
Qed.

Lemma lstrip_app_spaces s b :
  Forall (fun c => is_space c = true) b ->
  lstrip (s ++ b) = lstrip s ++ b \/ (lstrip (s ++ b) = [] /\ lstrip s = []).
Proof.
  intros Hb. induction s as [|c s IH]; simpl.
  - right. split; [|reflexivity].
    rewrite <- (app_nil_r b). apply (lstrip_spaces b [] Hb).
  - destruct (is_space c); [exact IH | left; reflexivity].
Qed.

Lemma strip_padding a s b :
  Forall (fun c => is_space c = true) a ->
  Forall (fun c => is_space c = true) b ->
  strip (a ++ s ++ b) = strip s.
Proof.
  intros Ha Hb. unfold strip. rewrite (lstrip_spaces a _ Ha).
  destruct (lstrip_app_spaces s b Hb) as [-> | [-> ->]]; [|reflexivity].
  rewrite rev_app_distr. rewrite lstrip_spaces; [reflexivity|].
  apply Forall_rev. exact Hb.
Qed.

(** X3.  [handle_url] works on the stripped message: white space
    (in Python's sense) before and after the text changes nothing of
    what the handler does. *)
Theorem handle_url_ignores_padding env user_id (a text b : pystr) w :
  Forall (fun c => is_space c = true) a ->
  Forall (fun c => is_space c = true) b ->
  handle_url env user_id (a ++ text ++ b) w = handle_url env user_id text w.
Proof.
  intros Ha Hb. unfold handle_url. rewrite (strip_padding a text b Ha Hb). reflexivity.
Qed.

Lemma handle_url_ignores_padding_witness :
  Forall (fun c => is_space c = true) (txt "  ") /\
  Forall (fun c => is_space c = true) (txt " " ++ NL) /\
  handle_url (env_of (engine_returns 5)) 7
    (txt "  " ++ txt "https://youtu.be/abc123" ++ txt " " ++ NL) world_youtube
  = handle_url (env_of (engine_returns 5)) 7 (txt "https://youtu.be/abc123") world_youtube.
Proof.
  assert (Ha : Forall (fun c => is_space c = true) (txt "  "))
    by (repeat constructor).
  assert (Hb : Forall (fun c => is_space c = true) (txt " " ++ NL))
    by (repeat constructor).
  split; [exact Ha|]. split; [exact Hb|].
  exact (handle_url_ignores_padding (env_of (engine_returns 5)) 7 (txt "  ")
           (txt "https://youtu.be/abc123") (txt " " ++ NL) world_youtube Ha Hb).
Defined.

(** ** Routing of callback queries *)

Lemma startswith_prefix p rest : startswith p (p ++ rest) = true.
Proof.
  induction p as [|a p IH]; [reflexivity|]. simpl. rewrite N.eqb_refl. exact IH.
Qed.

(** On a pattern without operators [re.match] is [str.startswith]. *)
Lemma re_match_Lit p s : re_match (Lit p) s = startswith p s.
Proof.
  apply eq_true_iff_eq. rewrite re_match_spec. split.
  - intros (pre & q & -> & Hpre). apply lang_Lit in Hpre as ->.
    apply startswith_prefix.
  - intros H. apply startswith_app in H as [rest ->].
    exists p, rest. split; [reflexivity | apply lang_Lit; reflexivity].
Qed.

Ltac wsimpl :=
  cbn [fst snd user_state files trace add_event set_files set_user_state].

Lemma process_update_user_state env u w :
  user_state (process_update env u w) = user_state (dispatch env u w).1.
Proof.
  unfold process_update, try_except.
  destruct (dispatch env u w) as [w' [e|[]]]; reflexivity.
Qed.

Lemma process_update_files env u w :
  files (process_update env u w) = files (dispatch env u w).1.
Proof.
  unfold process_update, try_except.
  destruct (dispatch env u w) as [w' [e|[]]]; reflexivity.
Qed.

(** X4.  A callback query whose data starts with [menu:] goes to
    [menu_handler], whatever follows the prefix: it changes no
    session and no file and calls no engine, and when the data is not
    exactly [menu:download] the bot does nothing but answer the
    query. *)
Theorem menu_callback_changes_nothing env user_id data w :
  startswith (txt "menu:") data = true ->
  let w' := process_update env (CallbackQuery user_id data) w in
  user_state w' = user_state w /\
  files w' = files w /\
  count_events is_engine (added w w') = O /\
  (data <> txt "menu:download" ->
   gateway env (trace w) AnswerCallback = None ->
   added w w' = [Gateway AnswerCallback]).
Proof.
  intros Hd w'. subst w'. unfold process_update, dispatch.
  rewrite re_match_Lit, Hd.
  unfold try_except, menu_handler, error_handler, bind, gw, emit, ret.
  destruct (gateway env (trace w) AnswerCallback) as [e|] eqn:Hgw; wsimpl.
  - split; [reflexivity|]. split; [reflexivity|].
    split; [added_is; reflexivity | intros _ [=]].
  - case_decide as Hdata; wsimpl.
    + destruct (gateway env (trace w ++ [Gateway AnswerCallback]) _) as [e|]; wsimpl;
        (split; [reflexivity|]; split; [reflexivity|];
         split; [added_is; reflexivity | intros Hne; contradiction]).
    + split; [reflexivity|]. split; [reflexivity|].
      split; [added_is; reflexivity | intros _ _; added_is; reflexivity].
Qed.

Lemma menu_callback_changes_nothing_witness :
  let env := env_of (engine_returns 5) in
  let w' := process_update env (CallbackQuery 7 (txt "menu:platform:YouTube"))
                           world_youtube in
  startswith (txt "menu:") (txt "menu:platform:YouTube") = true /\
  user_state w' = user_state world_youtube /\
  added world_youtube w' = [Gateway AnswerCallback].
Proof.
  intros env w'. split; [reflexivity|].
  destruct (menu_callback_changes_nothing env 7 (txt "menu:platform:YouTube")
              world_youtube eq_refl) as (Hs & _ & _ & Ha).
  split; [exact Hs|]. apply Ha; [vm_compute; discriminate | reflexivity].
Defined.

(** ** One user's updates and the other users' sessions *)

Lemma process_update_other_user env u w user_id :
  sender u <> user_id ->
  user_state (process_update env u w) !! user_id = user_state w !! user_id.
Proof.
  intros Hne. revert w.
  apply (respects_update env
           (fun w w' => user_state w' !! user_id = user_state w !! user_id)); simpl; auto.
  - intros w1 w2 w3 H1 H2. congruence.
  - intros. apply lookup_insert_ne. exact Hne.
  - intros. apply lookup_insert_ne. exact Hne.
  - intros. apply lookup_insert_ne. exact Hne.
Qed.

(** X5.  Sessions are kept apart: updates sent by other users,
    through whichever handlers and however these end, leave the
    session of a user exactly as it was. *)
Theorem other_users_leave_session env us w user_id :
  Forall (fun u => sender u <> user_id) us ->
  user_state (run env us w) !! user_id = user_state w !! user_id.
Proof.
  intros Hus. revert w. induction Hus as [|u us Hu _ IH]; intros w; [reflexivity|].
  simpl. rewrite IH. apply process_update_other_user. exact Hu.
Qed.

Lemma other_users_leave_session_witness :
  let env := env_of (engine_returns 5) in
  let us := [CallbackQuery 8 (txt "platform:TikTok");
             CallbackQuery 8 (txt "quality:360p");
             TextMessage 8 (txt "https://vm.tiktok.com/ZS1/")] in
  Forall (fun u => sender u <> 7%Z) us /\
  user_state (run env us world_youtube) !! 7%Z = Some session_youtube.
Proof.
  intros env us.
  assert (Hus : Forall (fun u => sender u <> 7%Z) us)
    by (repeat constructor; discriminate).
  split; [exact Hus|].
  exact (other_users_leave_session env us world_youtube 7 Hus).
Defined.

(** X6.  No handler ever removes a session: the users that have a
    session before a sequence of updates still have one after it. *)
Theorem sessions_are_never_removed env us w :
  dom (user_state w) ⊆ dom (user_state (run env us w)).
Proof.
  revert w. induction us as [|u us IH]; intros w; [reflexivity|].
  simpl. etrans; [|apply IH].
  revert w.
  apply (respects_update env
           (fun w w' => dom (user_state w) ⊆ dom (user_state w'))); simpl.
  - reflexivity.
  - intros w1 w2 w3 H1 H2. etrans; eassumption.
  - reflexivity.
  - reflexivity.
  - intros. rewrite dom_insert_L. apply union_subseteq_r.
  - intros. rewrite dom_insert_L. apply union_subseteq_r.
  - intros. rewrite dom_insert_L. apply union_subseteq_r.
Qed.

(** ** Quality selection without a session *)

Lemma quality_is_not_platform data :
  startswith (txt "quality:") data = true -> startswith (txt "platform:") data = false.
Proof.
  intros H. apply startswith_app in H as [rest ->]. reflexivity.
Qed.

(** X7.  A quality selection by a user who has no session creates
    none: the store and the files stay as they are, and what the user
    gets, once the query is answered, is the session-expired
    message. *)
Theorem quality_without_session env user_id data w :
  startswith (txt "quality:") data = true ->
  user_state w !! user_id = None ->
  let r := button_handler env user_id data w in
  user_state r.1 = user_state w /\
  files r.1 = files w /\
  (gateway env (trace w) AnswerCallback = None ->
   added w r.1 = [Gateway AnswerCallback;
                  Gateway (EditMessageText msg_session_expired false None)]).
Proof.
  intros Hq Hs r. subst r.
  destruct (split_colon_1_quality data Hq) as [q Hsplit].
  unfold button_handler. rewrite (quality_is_not_platform data Hq), Hq, Hsplit.
  unfold bind, lift, gw.
  destruct (gateway env (trace w) AnswerCallback) as [e|]; wsimpl.
  - split; [reflexivity|]. split; [reflexivity | intros [=]].
  - rewrite Hs.
    destruct (gateway env (trace w ++ [Gateway AnswerCallback]) _) as [e|]; wsimpl;
      (split; [reflexivity|]; split; [reflexivity | intros _; added_is; reflexivity]).
Qed.

Lemma quality_without_session_witness :
  let env := env_of (engine_returns 5) in
  let r := button_handler env 7 (txt "quality:720p") initial in
  startswith (txt "quality:") (txt "quality:720p") = true /\
  user_state initial !! 7%Z = None /\
  user_state r.1 = user_state initial /\
  added initial r.1 = [Gateway AnswerCallback;
                       Gateway (EditMessageText msg_session_expired false None)].
Proof.
  intros env r. split; [reflexivity|]. split; [reflexivity|].
  destruct (quality_without_session env 7 (txt "quality:720p") initial eq_refl eq_refl)
    as (Hs & _ & Ha).
  split; [exact Hs | exact (Ha eq_refl)].
Defined.

(** ** The buttons the bot offers *)

Lemma dispatch_button env user_id data w :
  startswith (txt "menu:") data = false ->
  dispatch env (CallbackQuery user_id data) w = button_handler env user_id data w.
Proof. intros H. unfold dispatch. rewrite re_match_Lit, H. reflexivity. Qed.

(** X8.  The payload of a platform button survives the way through
    the gateway and back: pressing any button of the platform menu,
    once the query is answered, writes a session whose platform is
    the button's label, which is a key of [patterns], so that the
    validator will not raise for it. *)
Theorem platform_button_round_trip env user_id label data w :
  In [InlineKeyboardButton label data] platform_keyboard ->
  gateway env (trace w) AnswerCallback = None ->
  let w' := process_update env (CallbackQuery user_id data) w in
  user_state w' !! user_id
  = Some {[ "platform" := VStr label; "video_sent" := VBool false ]} /\
  In label PLATFORMS /\
  forall url, exists b, is_valid_url (VStr label) url = Returned b.
Proof.
  intros Hb Hgw w'. subst w'.
  assert (H : In label PLATFORMS /\ startswith (txt "menu:") data = false /\
              startswith (txt "platform:") data = true /\
              split_colon_1 data = Returned label).
  { vm_compute in Hb. destruct Hb as [Hb | [Hb | [Hb | []]]];
      injection Hb as <- <-; (split; [vm_compute; tauto | repeat split]). }
  destruct H as (Hl & Hm & Hp & Hsplit).
  split; [|split; [exact Hl|]].
  - rewrite process_update_user_state, (dispatch_button env user_id data w Hm).
    destruct (button_handler_platform env user_id data w Hp Hgw) as (p & Hp' & ->).
    rewrite Hsplit in Hp'. injection Hp' as <-. apply lookup_insert_eq.
  - intros url. destruct (is_valid_url_listed label url Hl) as (b & Hb' & _). eauto.
Qed.

Lemma platform_button_round_trip_witness :
  let env := env_of (engine_returns 5) in
  In [InlineKeyboardButton (txt "TikTok") (txt "platform:TikTok")] platform_keyboard /\
  user_state (process_update env (CallbackQuery 7 (txt "platform:TikTok")) initial) !! 7%Z
  = Some {[ "platform" := VStr (txt "TikTok"); "video_sent" := VBool false ]}.
Proof.
  intros env.
  assert (Hb : In [InlineKeyboardButton (txt "TikTok") (txt "platform:TikTok")]
                  platform_keyboard) by (vm_compute; tauto).
  split; [exact Hb|].
  exact (proj1 (platform_button_round_trip env 7 (txt "TikTok") (txt "platform:TikTok")
                  initial Hb eq_refl)).
Defined.

(** X9.  The same for the quality menu: pressing any of its buttons
    in a session, once the query is answered, stores the button's
    label as the session's quality and changes no other field; the
    label is one of [QUALITIES], and the height ceiling can be taken
    from it. *)
Theorem quality_button_round_trip env user_id label data w session :
  In [InlineKeyboardButton label data] quality_keyboard ->
  user_state w !! user_id = Some session ->
  gateway env (trace w) AnswerCallback = None ->
  let w' := process_update env (CallbackQuery user_id data) w in
  user_state w' !! user_id = Some (<["quality" := VStr label]> session) /\
  In label QUALITIES /\
  exists h, str_replace_p (VStr label) = Returned h.
Proof.
  intros Hb Hs Hgw w'. subst w'.
  assert (H : In label QUALITIES /\ startswith (txt "menu:") data = false /\
              startswith (txt "quality:") data = true /\
              split_colon_1 data = Returned label).
  { vm_compute in Hb. destruct Hb as [Hb | [Hb | [Hb | [Hb | []]]]];
      injection Hb as <- <-; (split; [vm_compute; tauto | repeat split]). }
  destruct H as (Hl & Hm & Hq & Hsplit).
  split; [|split; [exact Hl | eexists; reflexivity]].
  rewrite process_update_user_state, (dispatch_button env user_id data w Hm).
  unfold button_handler. rewrite (quality_is_not_platform data Hq), Hq, Hsplit.
  unfold bind, lift, gw. rewrite Hgw. wsimpl. rewrite Hs. wsimpl.
  destruct (gateway env (trace w ++ [Gateway AnswerCallback]) _); wsimpl;
    apply lookup_insert_eq.
Qed.

Lemma quality_button_round_trip_witness :
  let env := env_of (engine_returns 5) in
  In [InlineKeyboardButton (txt "2k") (txt "quality:2k")] quality_keyboard /\
  user_state world_youtube !! 7%Z = Some session_youtube /\
  user_state (process_update env (CallbackQuery 7 (txt "quality:2k")) world_youtube) !! 7%Z
  = Some (<["quality" := VStr (txt "2k")]> session_youtube).
Proof.
  intros env.
  assert (Hb : In [InlineKeyboardButton (txt "2k") (txt "quality:2k")] quality_keyboard)
    by (vm_compute; tauto).
  split; [exact Hb|]. split; [reflexivity|].
  exact (proj1 (quality_button_round_trip env 7 (txt "2k") (txt "quality:2k")
                  world_youtube session_youtube Hb eq_refl eq_refl)).
Defined.

(** ** Selecting a platform again *)



(** ** A session whose platform is not a key of [patterns] *)

(** X11.  A session can hold any platform string, since
    [button_handler] stores the payload as it comes.  When the stored
    platform is not one of the three keys, every text the user sends
    makes the validator raise [KeyError] out of [handle_url]: the
    user gets no answer and nothing changes. *)
Theorem handle_url_unknown_platform env user_id text w session P :
  user_state w !! user_id = Some session ->
  session !! "platform" = Some (VStr P) ->
  ~ In P PLATFORMS ->
  truthy (dict_get session "video_sent" VNone) = false ->
  handle_url env user_id text w = (w, Raised (KeyError (VStr P))).
Proof.
  intros Hs HP Hn Hsent.
  apply (handle_url_validator_raises env user_id text w session _ Hs Hsent).
  unfold dict_get. rewrite HP. apply is_valid_url_unlisted. exact Hn.
Qed.

Lemma handle_url_unknown_platform_witness :
  let env := env_of (engine_returns 5) in
  let w := process_update env (CallbackQuery 7 (txt "platform:Instagram")) initial in
  ~ In (txt "Instagram") PLATFORMS /\
  handle_url env 7 (txt "https://youtu.be/abc123") w
  = (w, Raised (KeyError (VStr (txt "Instagram")))).
Proof.
  intros env w.
  assert (Hn : ~ In (txt "Instagram") PLATFORMS)
    by (vm_compute; intros [H | [H | [H | []]]]; discriminate H).
  split; [exact Hn|].
  exact (handle_url_unknown_platform env 7 (txt "https://youtu.be/abc123") w
           {[ "platform" := VStr (txt "Instagram"); "video_sent" := VBool false ]}
           (txt "Instagram") eq_refl eq_refl Hn eq_refl).
Defined.

(** ** The other ways through the download step *)

(** X12.  Storage is the working directory with regular files
    directly inside it, and the engine returned the name of an entry
    of that directory under which there is no file: the step tells
    the user that the download failed and returns; it removes
    nothing, sends no video and writes no session, so the flag stays
    as it was and the URL can be sent again. *)
Theorem download_file_missing env user_id message q w i file_path :
  let w1 := after_engine env w message q in
  downloads_only (files w1) = true ->
  outcome (engine env (download_opts env w q) message) = Returned (i, file_path) ->
  downloads_entry file_path = true ->
  files w1 !! file_path = None ->
  gateway env (trace w1) (ReplyText msg_file_not_found false None) = None ->
  let r := download env user_id message (VStr q) w in
  r.2 = Returned tt /\
  user_state r.1 = user_state w /\
  files r.1 = files w1 /\
  added w r.1 = [Makedirs (txt "downloads");
                 Engine (download_opts env w q) message;
                 Gateway (ReplyText msg_file_not_found false None)].
Proof.
  intros w1 _ Ho _ Hfile Hgw r. subst r.
  unfold download. rewrite fetch_str, Ho. fold w1.
  unfold try_except. rewrite (deliver_missing env user_id i file_path w1 Hfile).
  unfold reply_text, gw. rewrite Hgw. wsimpl.
  split; [reflexivity|]. split; [reflexivity|]. split; [reflexivity|].
  subst w1. added_is. reflexivity.
Qed.

Lemma download_file_missing_witness :
  let env := env_of engine_writes_nothing in
  let url := txt "https://youtu.be/abc123" in
  let r := download env 7 url (VStr (txt "720p")) world_kept in
  (downloads_only (files (after_engine env world_kept url (txt "720p"))) = true /\
   downloads_entry (txt "downloads/0123456789.mp4") = true /\
   files (after_engine env world_kept url (txt "720p"))
   !! txt "downloads/0123456789.mp4" = None) /\
  r.2 = Returned tt /\
  user_state r.1 = user_state world_kept /\
  files r.1 = {[ txt "downloads/kept.mp4" := 9 ]}.
Proof.
  intros env url r.
  assert (Honly : downloads_only (files (after_engine env world_kept url (txt "720p"))) = true)
    by (vm_compute; reflexivity).
  assert (Hentry : downloads_entry (txt "downloads/0123456789.mp4") = true)
    by (vm_compute; reflexivity).
  split; [split; [exact Honly | split; [exact Hentry | reflexivity]]|].
  destruct (download_file_missing env 7 url (txt "720p") world_kept
              {| title := None |} (txt "downloads/0123456789.mp4")
              Honly eq_refl Hentry eq_refl eq_refl) as (Hr & Hs & Hf & _).
  split; [exact Hr|]. split; [exact Hs | exact Hf].
Defined.

Lemma try_video_refused env user_id i file_path w size session e :
  let video := ReplyVideo file_path (default (txt "Downloaded video") (title i)) in
  let report := ReplyText (msg_error (str_exn env e)) false None in
  let log := Log ERROR (msg_download_error (str_exn env e)) in
  files w !! file_path = Some size ->
  size <= size_limit ->
  user_state w !! user_id = Some session ->
  gateway env (trace w) video = Some e ->
  gateway env (trace w ++ [Gateway video; log]) report = None ->
  try_except (deliver env user_id i file_path) (on_error env user_id (Some file_path)) w
  = ({| user_state := <[user_id := <["video_sent" := VBool false]> session]> (user_state w);
        files := delete file_path (files w);
        trace := trace w ++ [Gateway video; log; Gateway report; Remove file_path] |},
     Returned tt).
Proof.
  intros video report log Hfile Hsize Hs Hvideo Hreport.
  unfold try_except, deliver, bind, os_path_exists, os_path_getsize.
  rewrite Hfile. simpl. rewrite Hfile.
  rewrite (proj2 (N.ltb_ge _ _) Hsize).
  unfold gw at 1. fold video. rewrite Hvideo.
  unfold on_error, bind, emit, reply_text, gw, os_path_exists, os_remove, set_video_sent.
  simpl. fold video log report. rewrite <- app_assoc. simpl. rewrite Hreport.
  simpl. rewrite Hfile. simpl. rewrite Hfile. simpl. rewrite Hs.
  unfold add_event, set_user_state, set_files. simpl.
  rewrite <- !app_assoc. reflexivity.
Qed.

(** X13.  The gateway refuses the video.  The exception is caught
    with [file_path] bound: the user is sent the error text, the file
    is removed, the flag is written [False], and the step returns. *)
Theorem download_send_failure env user_id message q w i file_path size session e :
  let w1 := after_engine env w message q in
  let video := ReplyVideo file_path (default (txt "Downloaded video") (title i)) in
  let report := ReplyText (msg_error (str_exn env e)) false None in
  let log := Log ERROR (msg_download_error (str_exn env e)) in
  outcome (engine env (download_opts env w q) message) = Returned (i, file_path) ->
  files w1 !! file_path = Some size ->
  size <= size_limit ->
  user_state w !! user_id = Some session ->
  gateway env (trace w1) video = Some e ->
  gateway env (trace w1 ++ [Gateway video; log]) report = None ->
  let r := download env user_id message (VStr q) w in
  r.2 = Returned tt /\
  files r.1 !! file_path = None /\
  sent_flag r.1 user_id = Some (VBool false) /\
  added w r.1 = [Makedirs (txt "downloads");
                 Engine (download_opts env w q) message;
                 Gateway video; log; Gateway report; Remove file_path].
Proof.
  intros w1 video report log Ho Hfile Hsize Hs Hvideo Hreport r. subst r.
  unfold download. rewrite fetch_str, Ho.
  rewrite (try_video_refused env user_id i file_path (after_engine env w message q)
             size session e Hfile Hsize Hs Hvideo Hreport).
  split; [reflexivity|]. split; [apply lookup_delete_eq|].
  split.
  - unfold sent_flag. wsimpl. rewrite lookup_insert_eq. apply lookup_insert_eq.
  - added_is. reflexivity.
Qed.

Lemma download_send_failure_witness :
  let env := env_with (gateway_refusing is_video_request (ExternalError (txt "timed out")))
                      (engine_returns 5) in
  let url := txt "https://youtu.be/abc123" in
  let r := download env 7 url (VStr (txt "720p")) world_youtube in
  gateway env (trace (after_engine env world_youtube url (txt "720p")))
    (ReplyVideo (txt "downloads/0123456789.mp4") (txt "A title"))
  = Some (ExternalError (txt "timed out")) /\
  r.2 = Returned tt /\
  files r.1 !! txt "downloads/0123456789.mp4" = None /\
  sent_flag r.1 7 = Some (VBool false).
Proof.
  intros env url r. split; [reflexivity|].
  assert (Hle : 5 <= size_limit) by (vm_compute; discriminate).
  destruct (download_send_failure env 7 url (txt "720p") world_youtube
              {| title := Some (txt "A title") |} (txt "downloads/0123456789.mp4") 5
              session_youtube (ExternalError (txt "timed out"))
              eq_refl eq_refl Hle eq_refl eq_refl eq_refl)
    as (Hr & Hf & Hflag & _).
  split; [exact Hr|]. split; [exact Hf | exact Hflag].
Defined.

Lemma try_confirmation_refused env user_id i file_path w size session e :
  let video := ReplyVideo file_path (default (txt "Downloaded video") (title i)) in
  let done := [Gateway video; Remove file_path; Log INFO (msg_removed file_path);
               Gateway (ReplyText msg_sent false None)] in
  let report := ReplyText (msg_error (str_exn env e)) false None in
  let log := Log ERROR (msg_download_error (str_exn env e)) in
  files w !! file_path = Some size ->
  size <= size_limit ->
  user_state w !! user_id = Some session ->
  gateway env (trace w) video = None ->
  gateway env (trace w ++ [Gateway video; Remove file_path;
                           Log INFO (msg_removed file_path)])
          (ReplyText msg_sent false None) = Some e ->
  gateway env (trace w ++ done ++ [log]) report = None ->
  try_except (deliver env user_id i file_path) (on_error env user_id (Some file_path)) w
  = ({| user_state :=
          <[user_id := <["video_sent" := VBool false]>
                         (<["video_sent" := VBool true]> session)]>
            (<[user_id := <["video_sent" := VBool true]> session]> (user_state w));
        files := delete file_path (files w);
        trace := trace w ++ done ++ [log; Gateway report] |},
     Returned tt).
Proof.
  intros video done report log Hfile Hsize Hs Hvideo Hsent Hreport.
  unfold try_except, deliver, bind, os_path_exists, os_path_getsize.
  rewrite Hfile. simpl. rewrite Hfile.
  rewrite (proj2 (N.ltb_ge _ _) Hsize).
  unfold gw at 1. fold video. rewrite Hvideo.
  unfold os_remove, emit, set_video_sent, reply_text. simpl.
  rewrite Hfile. simpl. rewrite Hfile. simpl. rewrite Hs. simpl.
  unfold gw at 1. simpl. rewrite <- !app_assoc. simpl. rewrite Hsent.
  unfold on_error, bind, emit, reply_text, gw, os_path_exists, os_remove, set_video_sent.
  simpl. fold video log report. rewrite <- !app_assoc. simpl.
  unfold done in Hreport. simpl in Hreport. rewrite Hreport. simpl.
  rewrite lookup_delete_eq. simpl. rewrite lookup_insert_eq.
  unfold add_event, set_user_state, set_files, done. simpl.
  rewrite <- !app_assoc. reflexivity.
Qed.

(** X14.  The video went out and the file is removed, but the gateway
    refuses the closing message.  That exception too is caught by the
    handler of the [try] statement, which writes the flag back to
    [False]: the step returns with the video delivered and the
    session open for another download. *)
Theorem download_confirmation_failure env user_id message q w i file_path size session e :
  let w1 := after_engine env w message q in
  let video := ReplyVideo file_path (default (txt "Downloaded video") (title i)) in
  let done := [Gateway video; Remove file_path; Log INFO (msg_removed file_path);
               Gateway (ReplyText msg_sent false None)] in
  outcome (engine env (download_opts env w q) message) = Returned (i, file_path) ->
  files w1 !! file_path = Some size ->
  size <= size_limit ->
  user_state w !! user_id = Some session ->
  gateway env (trace w1) video = None ->
  gateway env (trace w1 ++ [Gateway video; Remove file_path;
                            Log INFO (msg_removed file_path)])
          (ReplyText msg_sent false None) = Some e ->
  gateway env (trace w1 ++ done ++ [Log ERROR (msg_download_error (str_exn env e))])
          (ReplyText (msg_error (str_exn env e)) false None) = None ->
  let r := download env user_id message (VStr q) w in
  r.2 = Returned tt /\
  existsb is_video (added w r.1) = true /\
  files r.1 !! file_path = None /\
  sent_flag r.1 user_id = Some (VBool false).
Proof.
  intros w1 video done Ho Hfile Hsize Hs Hvideo Hsent Hreport r. subst r.
  unfold download. rewrite fetch_str, Ho.
  rewrite (try_confirmation_refused env user_id i file_path
             (after_engine env w message q) size session e
             Hfile Hsize Hs Hvideo Hsent Hreport).
  split; [reflexivity|]. split; [added_is; reflexivity|].
  split; [apply lookup_delete_eq|].
  unfold sent_flag. wsimpl. rewrite lookup_insert_eq. apply lookup_insert_eq.
Qed.

Lemma download_confirmation_failure_witness :
  let env := env_with (gateway_refusing is_sent_request (ExternalError (txt "timed out")))
                      (engine_returns 5) in
  let url := txt "https://youtu.be/abc123" in
  let r := download env 7 url (VStr (txt "720p")) world_youtube in
  user_state world_youtube !! 7%Z = Some session_youtube /\
  r.2 = Returned tt /\
  existsb is_video (added world_youtube r.1) = true /\
  sent_flag r.1 7 = Some (VBool false).
Proof.
  intros env url r. split; [reflexivity|].
  assert (Hle : 5 <= size_limit) by (vm_compute; discriminate).
  destruct (download_confirmation_failure env 7 url (txt "720p") world_youtube
              {| title := Some (txt "A title") |} (txt "downloads/0123456789.mp4") 5
              session_youtube (ExternalError (txt "timed out"))
              eq_refl eq_refl Hle eq_refl eq_refl eq_refl eq_refl)
    as (Hr & Hv & _ & Hflag).
  split; [exact Hr|]. split; [exact Hv | exact Hflag].
Defined.

(** ** What a download does to the files *)

Ltac removed_twice :=
  match goal with
  | H : delete ?p ?m !! ?p = Some _ |- _ => rewrite lookup_delete_eq in H; discriminate H
  end.

Lemma try_files env user_id i file_path w :
  let r := try_except (deliver env user_id i file_path)
                      (on_error env user_id (Some file_path)) w in
  files r.1 = files w \/ files r.1 = delete file_path (files w).
Proof.
  intros r. subst r.
  unfold try_except, deliver, on_error, bind, emit, reply_text, gw, os_path_exists,
    os_path_getsize, os_remove, set_video_sent, raise, ret.
  destruct (files w !! file_path) as [size|] eqn:Hfile; simpl.
  - rewrite Hfile. destruct (size_limit <? size); simpl;
      branches; first [left; reflexivity | right; reflexivity | removed_twice].
  - branches; first [left; reflexivity | right; reflexivity | removed_twice].
Qed.

(** X15.  Storage is the working directory with regular files
    directly inside it, and the name the engine returns, when it
    returns one, is the name of an entry of that directory.  Of the
    entries there after the engine has run, a download removes at
    most the one the engine named, and changes none: every other
    entry is there afterwards as the engine left it.  When the engine
    raised, that is every entry. *)
Theorem download_keeps_other_files env user_id message q w path :
  let w1 := after_engine env w message q in
  downloads_only (files w1) = true ->
  downloads_entry path = true ->
  (forall i file_path,
     outcome (engine env (download_opts env w q) message) = Returned (i, file_path) ->
     downloads_entry file_path = true /\ file_path <> path) ->
  files (download env user_id message (VStr q) w).1 !! path = files w1 !! path.
Proof.
  intros w1 _ _ Hpath. subst w1.
  destruct (outcome (engine env (download_opts env w q) message))
    as [e | [i file_path]] eqn:Ho.
  - destruct (download_engine_raises env user_id message q w e Ho) as (_ & _ & -> & _).
    reflexivity.
  - destruct (Hpath i file_path eq_refl) as [_ Hne].
    unfold download. rewrite fetch_str, Ho.
    destruct (try_files env user_id i file_path (after_engine env w message q))
      as [-> | ->]; [reflexivity|].
    apply lookup_delete_ne. exact Hne.
Qed.

Lemma download_keeps_other_files_witness :
  let env := env_of (engine_returns 5) in
  let url := txt "https://youtu.be/a" in
  (downloads_only (files (after_engine env world_kept url (txt "720p"))) = true /\
   downloads_entry (txt "downloads/kept.mp4") = true /\
   outcome (engine env (download_opts env world_kept (txt "720p")) url)
   = Returned ({| title := Some (txt "A title") |}, txt "downloads/0123456789.mp4")) /\
  files (download env 7 url (VStr (txt "720p")) world_kept).1
  !! txt "downloads/kept.mp4" = Some 9.
Proof.
  intros env url.
  assert (Honly : downloads_only (files (after_engine env world_kept url (txt "720p"))) = true)
    by (vm_compute; reflexivity).
  assert (Hentry : downloads_entry (txt "downloads/kept.mp4") = true)
    by (vm_compute; reflexivity).
  assert (H : forall i file_path,
             outcome (engine env (download_opts env world_kept (txt "720p")) url)
             = Returned (i, file_path) ->
             downloads_entry file_path = true /\ file_path <> txt "downloads/kept.mp4").
  { intros i file_path Ho. injection Ho as _ <-.
    split; [vm_compute; reflexivity | vm_compute; discriminate]. }
  split; [split; [exact Honly | split; [exact Hentry | reflexivity]]|].
  exact (download_keeps_other_files env 7 url (txt "720p") world_kept
           (txt "downloads/kept.mp4") Honly Hentry H).
Defined.

(** ** When the flag is set *)

Ltac flag_leaf :=
  let H := fresh "H" in
  intros H;
  first
    [ left; exact H
    | exfalso; revert H; unfold sent_flag; wsimpl;
      rewrite lookup_insert_eq, lookup_insert_eq; discriminate
    | right; eexists; split;
      [rewrite <- ?app_assoc; reflexivity | first [assumption | reflexivity]]
    | removed_twice ].

Lemma try_flag env user_id i file_path w :
  let r := try_except (deliver env user_id i file_path)
                      (on_error env user_id (Some file_path)) w in
  let video := ReplyVideo file_path (default (txt "Downloaded video") (title i)) in
  sent_flag r.1 user_id = Some (VBool true) ->
  sent_flag w user_id = Some (VBool true) \/
  exists l, trace r.1 = trace w ++ Gateway video :: l /\
            gateway env (trace w) video = None.
Proof.
  intros r video. subst r video.
  unfold try_except, deliver, on_error, bind, emit, reply_text, gw, os_path_exists,
    os_path_getsize, os_remove, set_video_sent, raise, ret.
  destruct (files w !! file_path) as [size|] eqn:Hfile; simpl.
  - rewrite Hfile. destruct (size_limit <? size); simpl; branches; flag_leaf.
  - branches; flag_leaf.
Qed.

Lemma on_error_unbound_user_state env user_id e w :
  user_state (on_error env user_id None e w).1 = user_state w.
Proof.
  unfold on_error, bind, emit, reply_text, gw, raise.
  wsimpl. destruct (gateway env _ _); reflexivity.
Qed.

Lemma fetch_user_state env message quality w :
  user_state (fetch env message quality w).1 = user_state w.
Proof.
  apply (respects_fetch env (fun w w' => user_state w' = user_state w)); auto.
  intros w1 w2 w3 H1 H2. congruence.
Qed.

Lemma fetch_extends env message quality w :
  extends w (fetch env message quality w).1.
Proof.
  apply (respects_fetch env extends extends_refl extends_trans extends_event extends_files).
Qed.

Lemma download_flag env user_id message quality w :
  let r := download env user_id message quality w in
  sent_flag r.1 user_id = Some (VBool true) ->
  sent_flag w user_id = Some (VBool true) \/
  exists pre video post,
    trace r.1 = (trace w ++ pre) ++ Gateway video :: post /\
    is_video_request video = true /\
    gateway env (trace w ++ pre) video = None.
Proof.
  intros r. subst r. unfold download.
  pose proof (fetch_user_state env message quality w) as Hst.
  destruct (fetch_extends env message quality w) as [l0 Hl0].
  destruct (fetch env message quality w) as [w1 [e | [i file_path]]]; simpl in Hst, Hl0.
  - intros H. left. revert H. unfold sent_flag.
    rewrite on_error_unbound_user_state, Hst. auto.
  - intros H. apply try_flag in H as [H | (l & Hl & Hgw)].
    + left. revert H. unfold sent_flag. rewrite Hst. auto.
    + right. rewrite Hl0 in Hl, Hgw. eexists l0, _, l.
      split; [exact Hl|]. split; [reflexivity | exact Hgw].
Qed.

(** X16.  [handle_url] sets the flag only on a video that the gateway
    took: when a user's flag is true after the handler, either it was
    true before, or the trace of this run holds a video request and
    the gateway, asked at that point, accepted it. *)
Theorem flag_set_only_after_video env user_id text w :
  let w' := (handle_url env user_id text w).1 in
  sent_flag w' user_id = Some (VBool true) ->
  sent_flag w user_id = Some (VBool true) \/
  exists pre video post,
    trace w' = (trace w ++ pre) ++ Gateway video :: post /\
    is_video_request video = true /\
    gateway env (trace w ++ pre) video = None.
Proof.
  intros w'. subst w'.
  assert (Hreply : forall t, sent_flag (reply_text env t w).1 user_id
                             = sent_flag w user_id).
  { intros t. unfold sent_flag, reply_text. rewrite gw_user_state. reflexivity. }
  destruct (user_state w !! user_id) as [session|] eqn:Hs.
  2: { rewrite (handle_url_no_session env user_id text w Hs), Hreply. auto. }
  destruct (truthy (dict_get session "video_sent" VNone)) eqn:Hsent.
  { rewrite (handle_url_sent env user_id text w session Hs Hsent), Hreply. auto. }
  destruct (is_valid_url (dict_get session "platform" VNone) (strip text))
    as [e | [|]] eqn:Hvalid.
  - rewrite (handle_url_validator_raises env user_id text w session e Hs Hsent Hvalid).
    auto.
  - rewrite (handle_url_valid env user_id text w session Hs Hsent Hvalid).
    unfold bind, reply_text, gw.
    destruct (gateway env (trace w) _); wsimpl; [auto|].
    intros H.
    apply download_flag in H as [H | (pre & video & post & Hpre & Hv & Hgw)];
      [left; exact H|].
    right. cbn [trace add_event] in Hpre, Hgw.
    rewrite <- (app_assoc (trace w)) in Hpre, Hgw.
    eexists _, video, post. split; [exact Hpre|]. split; [exact Hv | exact Hgw].
  - rewrite (handle_url_invalid env user_id text w session Hs Hsent Hvalid), Hreply.
    auto.
Qed.

Lemma flag_set_only_after_video_witness :
  let env := env_of (engine_returns 5) in
  let w' := (handle_url env 7 (txt "https://youtu.be/abc123") world_youtube).1 in
  sent_flag w' 7 = Some (VBool true) /\
  (sent_flag world_youtube 7 = Some (VBool true) \/
   exists pre video post,
     trace w' = (trace world_youtube ++ pre) ++ Gateway video :: post /\
     is_video_request video = true /\
     gateway env (trace world_youtube ++ pre) video = None).
Proof.
  intros env w'.
  assert (H : sent_flag w' 7 = Some (VBool true)) by (vm_compute; reflexivity).
  split; [exact H|].
  exact (flag_set_only_after_video env 7 (txt "https://youtu.be/abc123") world_youtube H).
Defined.

(** ** How often the engine is called *)

Lemma count_events_app f l1 l2 :
  count_events f (l1 ++ l2) = (count_events f l1 + count_events f l2)%nat.
Proof.
  induction l1 as [|ev l1 IH]; simpl; [reflexivity|]. rewrite IH. apply Nat.add_assoc.
Qed.

Ltac quiet_leaf :=
  eexists; split; [rewrite <- ?app_assoc; reflexivity | reflexivity].

Lemma try_no_engine env user_id i file_path w :
  exists l,
    trace (try_except (deliver env user_id i file_path)
                      (on_error env user_id (Some file_path)) w).1 = trace w ++ l /\
    count_events is_engine l = O.
Proof.
  unfold try_except, deliver, on_error, bind, emit, reply_text, gw, os_path_exists,
    os_path_getsize, os_remove, set_video_sent, raise, ret.
  destruct (files w !! file_path) as [size|] eqn:Hfile; simpl.
  - rewrite Hfile. destruct (size_limit <? size); simpl; branches; quiet_leaf.
  - branches; quiet_leaf.
Qed.

Lemma on_error_no_engine env user_id e w :
  exists l, trace (on_error env user_id None e w).1 = trace w ++ l /\
            count_events is_engine l = O.
Proof.
  unfold on_error, bind, emit, reply_text, gw, raise. simpl.
  branches; quiet_leaf.
Qed.

Lemma download_engine_count env user_id message quality w :
  exists l, trace (download env user_id message quality w).1 = trace w ++ l /\
            (count_events is_engine l <= 1)%nat.
Proof.
  unfold download, fetch, bind, emit, uuid4_hex_now, lift, run_engine. wsimpl.
  destruct (str_replace_p quality) as [e | h]; wsimpl.
  - destruct (on_error_no_engine env user_id e (add_event (Makedirs (txt "downloads")) w))
      as (l & Hl & Hc).
    exists (Makedirs (txt "downloads") :: l). split.
    + rewrite Hl. wsimpl. rewrite <- app_assoc. reflexivity.
    + simpl. rewrite Hc. lia.
  - match goal with |- context [Engine ?o message] => set (opts := o) end.
    set (w1 := add_event (Engine opts message) _).
    assert (Hw1 : trace w1 = trace w ++ [Makedirs (txt "downloads"); Engine opts message])
      by (subst w1; wsimpl; rewrite <- app_assoc; reflexivity).
    destruct (outcome (engine env opts message)) as [e | [i file_path]].
    + destruct (on_error_no_engine env user_id e w1) as (l & Hl & Hc).
      exists ([Makedirs (txt "downloads"); Engine opts message] ++ l). split.
      * rewrite Hl, Hw1, <- app_assoc. reflexivity.
      * simpl. rewrite Hc. lia.
    + destruct (try_no_engine env user_id i file_path w1) as (l & Hl & Hc).
      exists ([Makedirs (txt "downloads"); Engine opts message] ++ l). split.
      * rewrite Hl, Hw1, <- app_assoc. reflexivity.
      * simpl. rewrite Hc. lia.
Qed.

Lemma reply_quiet env text w :
  exists l, trace (reply_text env text w).1 = trace w ++ l /\
            count_events is_engine l = O.
Proof. unfold reply_text. rewrite gw_trace. eexists. split; reflexivity. Qed.

Lemma handle_url_engine_count env user_id text w :
  exists l, trace (handle_url env user_id text w).1 = trace w ++ l /\
            (count_events is_engine l <= 1)%nat.
Proof.
  assert (Hq : forall t, exists l, trace (reply_text env t w).1 = trace w ++ l /\
                                   (count_events is_engine l <= 1)%nat).
  { intros t. destruct (reply_quiet env t w) as (l & Hl & Hc).
    exists l. split; [exact Hl | lia]. }
  destruct (user_state w !! user_id) as [session|] eqn:Hs.
  2: { rewrite (handle_url_no_session env user_id text w Hs). apply Hq. }
  destruct (truthy (dict_get session "video_sent" VNone)) eqn:Hsent.
  { rewrite (handle_url_sent env user_id text w session Hs Hsent). apply Hq. }
  destruct (is_valid_url (dict_get session "platform" VNone) (strip text))
    as [e | [|]] eqn:Hvalid.
  - rewrite (handle_url_validator_raises env user_id text w session e Hs Hsent Hvalid).
    exists []. split; [symmetry; apply app_nil_r | simpl; lia].
  - rewrite (handle_url_valid env user_id text w session Hs Hsent Hvalid).
    unfold bind, reply_text, gw.
    destruct (gateway env (trace w) _); wsimpl.
    + eexists. split; [reflexivity | simpl; lia].
    + match goal with |- context [download ?e ?u ?m ?q ?w0] =>
        destruct (download_engine_count e u m q w0) as (l & Hl & Hc) end.
      eexists (_ :: l). split.
      * rewrite Hl. wsimpl. rewrite <- app_assoc. reflexivity.
      * simpl. exact Hc.
  - rewrite (handle_url_invalid env user_id text w session Hs Hsent Hvalid). apply Hq.
Qed.

Lemma callback_quiet env user_id data w :
  exists l, trace (dispatch env (CallbackQuery user_id data) w).1 = trace w ++ l /\
            count_events is_engine l = O.
Proof.
  unfold dispatch, menu_handler, button_handler, bind, lift, gw, ret.
  destruct (re_match _ data); [|destruct (startswith (txt "platform:") data);
                                [|destruct (startswith (txt "quality:") data)]];
    try case_decide; destruct (split_colon_1 data); branches; quiet_leaf.
Qed.

Lemma start_quiet env w :
  exists l, trace (start env w).1 = trace w ++ l /\ count_events is_engine l = O.
Proof. unfold start. rewrite gw_trace. eexists. split; reflexivity. Qed.

Lemma process_update_count env u w n :
  (exists l, trace (dispatch env u w).1 = trace w ++ l /\
             (count_events is_engine l <= n)%nat) ->
  (count_events is_engine (added w (process_update env u w)) <= n)%nat.
Proof.
  intros (l & Hl & Hc). unfold process_update, try_except, error_handler, emit.
  destruct (dispatch env u w) as [w1 [e|[]]]; simpl in *.
  - erewrite added_app; [|wsimpl; rewrite Hl, <- app_assoc; reflexivity].
    rewrite count_events_app. simpl. lia.
  - rewrite (added_app _ _ _ Hl). exact Hc.
Qed.

(** X17.  One update, at most one call of the engine: the bot never
    retries a download on its own, whatever the engine and the
    gateway do. *)
Theorem one_engine_call_per_update env u w :
  (count_events is_engine (added w (process_update env u w)) <= 1)%nat.
Proof.
  apply process_update_count. destruct u as [user_id | user_id data | user_id text].
  - destruct (start_quiet env w) as (l & Hl & Hc). exists l. split; [exact Hl | lia].
  - destruct (callback_quiet env user_id data w) as (l & Hl & Hc).
    exists l. split; [exact Hl | lia].
  - apply handle_url_engine_count.
Qed.

(** X18.  Only a text message can reach the engine or the files:
    [/start] and the callback queries, whatever their data and
    whoever sends them, call no engine and leave every file as it
    is. *)
Theorem only_text_reaches_engine env u w :
  (forall user_id text, u <> TextMessage user_id text) ->
  count_events is_engine (added w (process_update env u w)) = O /\
  files (process_update env u w) = files w.
Proof.
  intros Hu. split.
  - enough (count_events is_engine (added w (process_update env u w)) <= 0)%nat by lia.
    apply process_update_count. destruct u as [user_id | user_id data | user_id text].
    + destruct (start_quiet env w) as (l & Hl & Hc). exists l. split; [exact Hl | lia].
    + destruct (callback_quiet env user_id data w) as (l & Hl & Hc).
      exists l. split; [exact Hl | lia].
    + exfalso. apply (Hu user_id text). reflexivity.
  - rewrite process_update_files.
    destruct u as [user_id | user_id data | user_id text]; simpl.
    + apply gw_files.
    + destruct (re_match _ data).
      * apply (respects_menu_handler env (fun w w' => files w' = files w)); auto.
        intros w1 w2 w3 H1 H2. congruence.
      * apply (respects_button_handler env (fun w w' => files w' = files w)); auto.
        intros w1 w2 w3 H1 H2. congruence.
    + exfalso. apply (Hu user_id text). reflexivity.
Qed.

Lemma only_text_reaches_engine_witness :
  let env := env_of (engine_returns 5) in
  let u := CallbackQuery 7 (txt "quality:https://youtu.be/abc123") in
  (forall user_id text, u <> TextMessage user_id text) /\
  count_events is_engine (added world_youtube (process_update env u world_youtube)) = O /\
  files (process_update env u world_youtube) = files world_youtube.
Proof.
  intros env u.
  assert (Hu : forall user_id text, u <> TextMessage user_id text)
    by (intros user_id text; discriminate).
  split; [exact Hu|].
  exact (only_text_reaches_engine env u world_youtube Hu).
Defined.

(** ** The quality in the store *)

Lemma store_quality_str_insert st (user_id : Z) session :
  store_quality_str st -> quality_is_str session ->
  store_quality_str (<[user_id := session]> st).
Proof.
  intros Hst Hs user_id' session'. rewrite lookup_insert.
  case_decide; [intros [= <-]; exact Hs | apply Hst].
Qed.

Lemma process_update_quality_str env u w :
  store_quality_str (user_state w) ->
  store_quality_str (user_state (process_update env u w)).
Proof.
  revert w.
  apply (respects_update env
           (fun w w' => store_quality_str (user_state w) ->
                        store_quality_str (user_state w'))); simpl; auto.
  - intros b w session E Hw. apply store_quality_str_insert; [exact Hw|].
    specialize (Hw _ _ E). unfold quality_is_str in *.
    rewrite lookup_insert_ne; [exact Hw | discriminate].
  - intros q w session E Hw. apply store_quality_str_insert; [exact Hw|].
    unfold quality_is_str. rewrite lookup_insert_eq. eauto.
  - intros platform w Hw. apply store_quality_str_insert; [exact Hw|]. exact I.
Qed.

Lemma run_quality_str env us : forall w,
  store_quality_str (user_state w) -> store_quality_str (user_state (run env us w)).
Proof.
  induction us as [|u us IH]; intros w Hw; [exact Hw|].
  apply IH. apply process_update_quality_str. exact Hw.
Qed.

(** X19.  Whatever updates the bot has processed since it started,
    the quality [handle_url] reads from a session (the stored one, or
    the default when there is none) is a string, so that
    [quality.replace] on line 120 does not raise. *)
Theorem quality_read_is_str env us user_id session :
  user_state (run env us initial) !! user_id = Some session ->
  exists q h,
    dict_get session "quality" (VStr (txt "720p")) = VStr q /\
    str_replace_p (VStr q) = Returned h.
Proof.
  intros Hs.
  assert (H : store_quality_str (user_state (run env us initial))).
  { apply run_quality_str. intros uid s E. simpl in E.
    rewrite lookup_empty in E. discriminate. }
  specialize (H _ _ Hs). unfold quality_is_str, dict_get in *.
  destruct (session !! "quality") as [v|].
  - destruct H as [q ->]. eexists q, _. split; reflexivity.
  - eexists _, _. split; reflexivity.
Qed.

Lemma quality_read_is_str_witness :
  let env := env_of (engine_returns 5) in
  let us := [CallbackQuery 7 (txt "platform:Facebook");
             CallbackQuery 7 (txt "quality:anything at all")] in
  exists session,
    user_state (run env us initial) !! 7%Z = Some session /\
    exists q h,
      dict_get session "quality" (VStr (txt "720p")) = VStr q /\
      str_replace_p (VStr q) = Returned h.
Proof.
  intros env us.
  destruct (user_state (run env us initial) !! 7%Z) as [session|] eqn:Hs.
  - exists session. split; [reflexivity|].
    exact (quality_read_is_str env us 7 session Hs).
  - vm_compute in Hs. discriminate Hs.
Defined.
